(** * data-streaming: the dashboard's client logic and the Stream Processor

    The development has two halves.  The first embeds the JavaScript of the
    React front end that the claims are about: the create-topic form of the
    Topics page, the rolling chart window of the Dashboard page, the axios
    response interceptor of [ApiService] and the route table of [App].  The
    second is a model of the Stream Processor Engine, whose Python
    implementation (backend/src/utils/stream_processor.py) is not part of
    the sources at hand and is therefore written down from the
    specification.

    Definitions come first, module by module; the theorems follow. *)

From Stdlib Require Import ZArith Ascii String List Bool Lia.
From Stdlib Require DecimalString DecimalNat.
From stdpp Require Import base option list strings gmap.

Local Open Scope Z_scope.

(* ===================================================================== *)
(** ** JavaScript values and built-ins used by the pages                  *)
(* ===================================================================== *)

Module Js.

(** A JavaScript number as the pages use it: an integer or [NaN].  The form
    fields and the metrics payload are integral; the value of a digit
    string is kept exact (no rounding to a double). *)
Inductive num : Type :=
  | NaN
  | Num (z : Z).

(** [a < b] on numbers: every comparison with [NaN] is false. *)
Definition lt (a b : num) : bool :=
  match a, b with
  | Num x, Num y => x <? y
  | _, _ => false
  end.

(** White space skipped by [parseInt] (the code units below 256). *)
Definition is_white_space (c : ascii) : bool :=
  let n := nat_of_ascii c in
  (Nat.eqb n 9 || Nat.eqb n 10 || Nat.eqb n 11 || Nat.eqb n 12
   || Nat.eqb n 13 || Nat.eqb n 32 || Nat.eqb n 160)%bool.

Fixpoint trim_start (s : string) : string :=
  match s with
  | String c s' => if is_white_space c then trim_start s' else s
  | EmptyString => EmptyString
  end.

Definition digit_value (c : ascii) : option Z :=
  let n := nat_of_ascii c in
  if (Nat.leb 48 n && Nat.leb n 57)%bool then Some (Z.of_nat n - 48) else None.

(** The longest prefix of decimal digits, as a number; [acc] is [None]
    until a first digit has been read. *)
Fixpoint parse_digits (s : string) (acc : option Z) : option Z :=
  match s with
  | String c s' =>
      match digit_value c with
      | Some d => parse_digits s' (Some (10 * default 0 acc + d))
      | None => acc
      end
  | EmptyString => acc
  end.

(** [parseInt(s, 10)]: skip white space, read a sign, read digits; [NaN]
    when no digit follows. *)
Definition parseInt10 (s : string) : num :=
  let s1 := trim_start s in
  let '(sign, s2) :=
    match s1 with
    | String "-"%char r => (-1, r)
    | String "+"%char r => (1, r)
    | _ => (1, s1)
    end in
  match parse_digits s2 None with
  | Some n => Num (sign * n)
  | None => NaN
  end.

(** [arr.slice(start)] with one argument: a negative [start] counts from
    the end and is clamped at the beginning of the array. *)
Definition slice {A : Type} (start : Z) (l : list A) : list A :=
  let len := Z.of_nat (length l) in
  let k := if start <? 0 then Z.max (len + start) 0 else Z.min start len in
  drop (Z.to_nat k) l.

(** A character class of a regular expression: ranges and single
    characters. *)
Inductive class_item : Type :=
  | CRange (lo hi : ascii)
  | CChar (c : ascii).

Definition class_item_matches (it : class_item) (c : ascii) : bool :=
  match it with
  | CRange lo hi =>
      (Nat.leb (nat_of_ascii lo) (nat_of_ascii c)
       && Nat.leb (nat_of_ascii c) (nat_of_ascii hi))%bool
  | CChar d => Ascii.eqb c d
  end.

Definition class_matches (cls : list class_item) (c : ascii) : bool :=
  existsb (fun it => class_item_matches it c) cls.

Fixpoint all_in_class (cls : list class_item) (s : string) : bool :=
  match s with
  | EmptyString => true
  | String c s' => (class_matches cls c && all_in_class cls s')%bool
  end.

(** [/^[cls]+$/.test(s)]: one or more characters, all of the class, from
    the start of the input to its end (no [m] flag). *)
Definition test_class_plus (cls : list class_item) (s : string) : bool :=
  match s with
  | EmptyString => false
  | String _ _ => all_in_class cls s
  end.

End Js.

(* ===================================================================== *)
(** ** The Topics page: the create-topic form                              *)
(* ===================================================================== *)

Module Topics.

(** The [newTopic] state object. *)
Record NewTopic : Type := mkNewTopic {
  name : string;
  partitions : Js.num;
  replication : Js.num
}.

(** The part of the component state the form handlers read and write. *)
Record State : Type := mkState {
  newTopic : NewTopic;
  formError : string;
  openDialog : bool
}.

(** The three inputs bound to [handleInputChange], by their [name]
    attribute. *)
Inductive field : Type := FName | FPartitions | FReplication.

(** [handleOpenDialog]. *)
Definition handleOpenDialog (st : State) : State :=
  {| newTopic := {| name := EmptyString; partitions := Js.Num 3; replication := Js.Num 3 |};
     formError := EmptyString;
     openDialog := true |}.

(** [handleInputChange]: the name is stored as typed, the two numeric
    fields go through [parseInt(value, 10)]. *)
Definition handleInputChange (f : field) (value : string) (st : State) : State :=
  let t := newTopic st in
  let t' :=
    match f with
    | FName => {| name := value; partitions := partitions t; replication := replication t |}
    | FPartitions =>
        {| name := name t; partitions := Js.parseInt10 value; replication := replication t |}
    | FReplication =>
        {| name := name t; partitions := partitions t; replication := Js.parseInt10 value |}
    end in
  {| newTopic := t'; formError := formError st; openDialog := openDialog st |}.

(** The class of [/^[a-zA-Z0-9._-]+$/]. *)
Definition topic_name_class : list Js.class_item :=
  [Js.CRange "a" "z"; Js.CRange "A" "Z"; Js.CRange "0" "9";
   Js.CChar "."; Js.CChar "_"; Js.CChar "-"].

Definition setFormError (msg : string) (st : State) : State :=
  {| newTopic := newTopic st; formError := msg; openDialog := openDialog st |}.

(** [validateForm]: the four checks in the order of the source, each
    setting the form error and returning [false]. *)
Definition validateForm (st : State) : bool * State :=
  let t := newTopic st in
  if String.eqb (name t) EmptyString then
    (false, setFormError "Topic name is required" st)
  else if negb (Js.test_class_plus topic_name_class (name t)) then
    (false, setFormError
       "Topic name can only contain letters, numbers, dots, underscores, and hyphens" st)
  else if Js.lt (partitions t) (Js.Num 1) then
    (false, setFormError "Number of partitions must be at least 1" st)
  else if Js.lt (replication t) (Js.Num 1) then
    (false, setFormError "Replication factor must be at least 1" st)
  else (true, st).

(** [handleCreateTopic] up to the call of [ApiService.createTopic]: the
    request body handed to the API, if the form passes validation. *)
Definition handleCreateTopic (st : State) : option NewTopic * State :=
  let '(ok, st') := validateForm st in
  if ok then (Some (newTopic st'), st') else (None, st').

(** The topic naming grammar in the words of the specification: 1 to 249
    characters; alphanumeric plus [.], [_], [-]; not [.] or [..]; not
    starting with [.] or [_]. *)
Definition is_alphanumeric (c : ascii) : bool :=
  let n := nat_of_ascii c in
  ((Nat.leb 48 n && Nat.leb n 57) || (Nat.leb 65 n && Nat.leb n 90)
   || (Nat.leb 97 n && Nat.leb n 122))%bool.

Definition grammar_char (c : ascii) : bool :=
  (is_alphanumeric c || Ascii.eqb c "." || Ascii.eqb c "_" || Ascii.eqb c "-")%bool.

Definition grammar_name_ok (s : string) : bool :=
  (Nat.leb 1 (String.length s) && Nat.leb (String.length s) 249
   && forallb grammar_char (list_ascii_of_string s)
   && negb (String.eqb s ".") && negb (String.eqb s "..")
   && match s with
      | String c _ => negb (Ascii.eqb c "." || Ascii.eqb c "_")
      | EmptyString => true
      end)%bool.

(** The parameters the specification calls invalid. *)
Definition spec_invalid (t : NewTopic) : bool :=
  (Js.lt (partitions t) (Js.Num 1) || Js.lt (replication t) (Js.Num 1)
   || negb (grammar_name_ok (name t)))%bool.

Definition form (n : string) (p r : Z) : State :=
  {| newTopic := {| name := n; partitions := Js.Num p; replication := Js.Num r |};
     formError := EmptyString;
     openDialog := true |}.

(** A name of 250 letters. *)
Definition long_name : string := string_of_list_ascii (repeat "a"%char 250).

End Topics.

(* ===================================================================== *)
(** ** The Dashboard page: the rolling chart window                        *)
(* ===================================================================== *)

Module Dashboard.

(** The fields of the metrics payload the chart reads. *)
Record Metrics : Type := mkMetrics {
  messages_processed : Z;
  processing_errors : Z
}.

Record Dataset : Type := mkDataset {
  label : string;
  data : list Z;
  borderColor : string;
  backgroundColor : string
}.

(** [chartData]: the labels and the two datasets ([datasets[0]] and
    [datasets[1]]). *)
Record ChartData : Type := mkChartData {
  labels : list string;
  datasets0 : Dataset;
  datasets1 : Dataset
}.

(** The initial value given to [useState]. *)
Definition initialChartData : ChartData :=
  {| labels := [];
     datasets0 := {| label := "Messages Processed"; data := [];
                     borderColor := "rgb(53, 162, 235)";
                     backgroundColor := "rgba(53, 162, 235, 0.5)" |};
     datasets1 := {| label := "Errors"; data := [];
                     borderColor := "rgb(255, 99, 132)";
                     backgroundColor := "rgba(255, 99, 132, 0.5)" |} |}.

(** The window size written in the three [slice(-10)] calls. *)
Definition window : nat := 10.

Definition with_data (d : Dataset) (xs : list Z) : Dataset :=
  {| label := label d; data := xs;
     borderColor := borderColor d; backgroundColor := backgroundColor d |}.

(** [updateChartData]: the state updater passed to [setChartData]; [now]
    is the label [new Date().toLocaleTimeString()]. *)
Definition updateChartData (now : string) (newMetrics : Metrics)
    (prevData : ChartData) : ChartData :=
  let labels' := Js.slice (-10) (labels prevData ++ [now]) in
  let messagesData :=
    Js.slice (-10) (data (datasets0 prevData) ++ [messages_processed newMetrics]) in
  let errorsData :=
    Js.slice (-10) (data (datasets1 prevData) ++ [processing_errors newMetrics]) in
  {| labels := labels';
     datasets0 := with_data (datasets0 prevData) messagesData;
     datasets1 := with_data (datasets1 prevData) errorsData |}.

(** The chart after a sequence of polls, oldest first. *)
Definition after_polls (polls : list (string * Metrics)) : ChartData :=
  foldl (fun c p => updateChartData (fst p) (snd p) c) initialChartData polls.

(** The [n] most recent elements of a history, in order (the words of
    the specification, not the code's [slice]). *)
Definition most_recent {A : Type} (n : nat) (l : list A) : list A :=
  rev (take n (rev l)).

(** Ten polls, which fill the window. *)
Definition ten_polls : list (string * Metrics) :=
  map (fun k => ("t"%string, mkMetrics k 0)) [1; 2; 3; 4; 5; 6; 7; 8; 9; 10].

End Dashboard.

(* ===================================================================== *)
(** ** ApiService: the axios response interceptor                          *)
(* ===================================================================== *)

Module ApiService.

Record Response : Type := mkResponse {
  status : Z;
  data : string
}.

(** The error object axios rejects with; [response] is absent when no
    response was received. *)
Record AxiosError : Type := mkAxiosError {
  response : option Response
}.

Inductive Promise : Type :=
  | Resolved (r : Response)
  | Rejected (e : AxiosError).

(** What the interceptor can touch in the browser. *)
Record Browser : Type := mkBrowser {
  localStorage : gmap string string;
  location_href : string
}.

(** The fulfilled handler of [axios.interceptors.response.use]. *)
Definition onFulfilled (r : Response) (b : Browser) : Promise * Browser :=
  (Resolved r, b).

(** The rejected handler: on 401 clear the stored user and go to the
    login page; always reject with the same error. *)
Definition onRejected (error : AxiosError) (b : Browser) : Promise * Browser :=
  let b' :=
    match response error with
    | Some r =>
        if status r =? 401 then
          {| localStorage := delete "user" (localStorage b);
             location_href := "/admin/login" |}
        else b
    | None => b
    end in
  (Rejected error, b').

(** axios' default [validateStatus]: 2xx resolves, anything else rejects
    with an error carrying the response. *)
Definition validateStatus (s : Z) : bool := (200 <=? s) && (s <? 300).

(** A response received from the API, passed through the interceptor. *)
Definition receive (r : Response) (b : Browser) : Promise * Browser :=
  if validateStatus (status r) then onFulfilled r b
  else onRejected {| response := Some r |} b.

(** The browser after the 401 branch. *)
Definition signed_out (b : Browser) : Browser :=
  {| localStorage := delete "user" (localStorage b);
     location_href := "/admin/login" |}.

(** A browser holding a stored user, on the Topics page. *)
Definition stored_session : Browser :=
  {| localStorage := <["user"%string := "admin"%string]> ∅;
     location_href := "/topics" |}.

End ApiService.

(* ===================================================================== *)
(** ** App: the route table                                                *)
(* ===================================================================== *)

Module App.

Inductive page : Type :=
  | Dashboard | StreamingStatus | Topics | StreamingApps | Help
  | AdminLogin | AdminDashboard.

(** What a route's [element] evaluates to: a page, or [<Navigate to=...
    replace />]. *)
Inductive element : Type :=
  | Render (p : page)
  | Navigate (to : string).

Definition to_lower (c : ascii) : ascii :=
  let n := nat_of_ascii c in
  if (Nat.leb 65 n && Nat.leb n 90)%bool then ascii_of_nat (n + 32) else c.

Fixpoint all_slashes (s : string) : bool :=
  match s with
  | EmptyString => true
  | String c s' => (Ascii.eqb c "/" && all_slashes s')%bool
  end.

(** The rest of [path] after [pattern], letters compared without case. *)
Fixpoint strip_prefix_ci (pattern path : string) : option string :=
  match pattern, path with
  | EmptyString, _ => Some path
  | String p pattern', String c path' =>
      if Ascii.eqb (to_lower p) (to_lower c) then strip_prefix_ci pattern' path'
      else None
  | String _ _, EmptyString => None
  end.

(** React Router's match of a static route path: the pattern, then any
    number of trailing slashes, case-insensitive. *)
Definition matchPath (pattern path : string) : bool :=
  match strip_prefix_ci pattern path with
  | Some rest => all_slashes rest
  | None => false
  end.

(** The [<Route>] children of [<Routes>], except the final [path="*"]. *)
Definition routes (isLoggedIn : bool) : list (string * element) :=
  [ ("/"%string, Render Dashboard);
    ("/status"%string, Render StreamingStatus);
    ("/topics"%string, Render Topics);
    ("/apps"%string, Render StreamingApps);
    ("/help"%string, Render Help);
    ("/admin/login"%string,
       if isLoggedIn then Navigate "/admin/dashboard" else Render AdminLogin);
    ("/admin/dashboard"%string,
       if isLoggedIn then Render AdminDashboard else Navigate "/admin/login") ].

Fixpoint first_match (rs : list (string * element)) (path : string) : option element :=
  match rs with
  | [] => None
  | (pattern, e) :: rs' => if matchPath pattern path then Some e else first_match rs' path
  end.

(** The element [<Routes>] shows at [path]; the [path="*"] route catches
    what no other route matches. *)
Definition route (isLoggedIn : bool) (path : string) : element :=
  match first_match (routes isLoggedIn) path with
  | Some e => e
  | None => Navigate "/"
  end.

(** A path no route but [path="*"] matches. *)
Definition unknown (path : string) : bool :=
  forallb (fun r => negb (matchPath (fst r) path)) (routes false).

(** Follow [Navigate] elements until a page is rendered. *)
Fixpoint settle (fuel : nat) (isLoggedIn : bool) (path : string) : option page :=
  match fuel with
  | O => None
  | S fuel' =>
      match route isLoggedIn path with
      | Render p => Some p
      | Navigate to => settle fuel' isLoggedIn to
      end
  end.

(** The component state and the storage its handlers write. *)
Record State : Type := mkState {
  isLoggedIn : bool;
  sidebarOpen : bool;
  localStorage : gmap string string
}.

Definition initial (storage : gmap string string) : State :=
  {| isLoggedIn := false; sidebarOpen := true; localStorage := storage |}.

(** A string is truthy unless empty; a missing item is [null]. *)
Definition truthy (v : option string) : bool :=
  match v with
  | Some s => negb (String.eqb s EmptyString)
  | None => false
  end.

(** The mount effect: [if (user) setIsLoggedIn(true)]. *)
Definition mount (st : State) : State :=
  if truthy (localStorage st !! "user"%string) then
    {| isLoggedIn := true; sidebarOpen := sidebarOpen st; localStorage := localStorage st |}
  else st.

Section Handlers.

(** The user object given to [onLogin] and its [JSON.stringify]. *)
Variable User : Type.
Variable JSON_stringify : User -> string.

Definition handleLogin (user : User) (st : State) : State :=
  {| isLoggedIn := true; sidebarOpen := sidebarOpen st;
     localStorage := <["user"%string := JSON_stringify user]> (localStorage st) |}.

Definition handleLogout (st : State) : State :=
  {| isLoggedIn := false; sidebarOpen := sidebarOpen st;
     localStorage := delete "user"%string (localStorage st) |}.

Definition toggleSidebar (st : State) : State :=
  {| isLoggedIn := isLoggedIn st; sidebarOpen := negb (sidebarOpen st);
     localStorage := localStorage st |}.

Inductive event : Type :=
  | Login (user : User)
  | Logout
  | ToggleSidebar.

Definition handle (st : State) (e : event) : State :=
  match e with
  | Login u => handleLogin u st
  | Logout => handleLogout st
  | ToggleSidebar => toggleSidebar st
  end.

(** The state after the mount effect and a sequence of events. *)
Definition after (storage : gmap string string) (es : list event) : State :=
  foldl handle (mount (initial storage)) es.

End Handlers.

End App.

(* ===================================================================== *)
(** ** The Stream Processor Engine                                         *)
(* ===================================================================== *)

(** The Engine's implementation (backend/src/utils/stream_processor.py)
    and its adapters are not among the sources; only their callers in the
    front end are.  Every definition of this module is written from the
    specification, sections 3 to 7. *)

Module Engine.

Local Open Scope nat_scope.

(** Modelled from the spec: the lifecycle states of section 4.3; the
    Engine's implementation is not among the sources. *)
Inductive Lifecycle : Type := STOPPED | STARTING | RUNNING | STOPPING.

(** Modelled from the spec: the error taxonomy of section 7. *)
Inductive Error : Type :=
  | ConnectionError | AuthError | MessageFormatError
  | PublishError | AckError | ConfigError.

(** Modelled from the spec: the Message of section 3; the payload is
    opaque to the Engine, times are ticks of some clock. *)
Record Message : Type := mkMessage {
  id : nat;
  body : string;
  ack_token : nat;
  receive_count : nat;
  enqueued_at : nat;
  received_at : nat
}.

#[global] Instance Message_eq_dec : EqDecision Message.
Proof. solve_decision. Defined.

(** Modelled from the spec: the configuration of section 6, fixed at
    construction, with the poison threshold of step 3 and the capacity of
    the rolling history.  The model has no clock, so the timeouts, the
    idle interval and the backoff delays are not part of it. *)
Record Config : Type := mkConfig {
  batch_size : nat;
  publish_retry_limit : nat;
  poison_threshold : nat;
  history_capacity : nat;
  sink_topic : string
}.

(** *** Metrics Registry (section 4.4) *)

(** Modelled from the spec: the names of the three counters of the
    metrics snapshot. *)
Inductive Counter : Type := MessagesProcessed | ProcessingErrors | SinkErrors.

(** Modelled from the spec: the counters of the metrics snapshot. *)
Record Counters : Type := mkCounters {
  messages_processed : nat;
  processing_errors : nat;
  sink_errors : nat
}.

(** Modelled from the spec: a periodic sample of the rolling history. *)
Record Sample : Type := mkSample {
  sampled_at : nat;
  sampled : Counters
}.

(** Modelled from the spec: the Registry holds the three counters, the
    tallies of unprocessable messages and of failed acknowledgments, and
    the bounded rolling history. *)
Record Registry : Type := mkRegistry {
  counters : Counters;
  unprocessable : nat;
  ack_failures : nat;
  recent_history : list Sample
}.

Definition zero : Counters :=
  {| messages_processed := 0; processing_errors := 0; sink_errors := 0 |}.

Definition empty : Registry :=
  {| counters := zero; unprocessable := 0; ack_failures := 0; recent_history := [] |}.

Definition bump (c : Counter) (cs : Counters) : Counters :=
  match c with
  | MessagesProcessed =>
      {| messages_processed := S (messages_processed cs);
         processing_errors := processing_errors cs; sink_errors := sink_errors cs |}
  | ProcessingErrors =>
      {| messages_processed := messages_processed cs;
         processing_errors := S (processing_errors cs); sink_errors := sink_errors cs |}
  | SinkErrors =>
      {| messages_processed := messages_processed cs;
         processing_errors := processing_errors cs; sink_errors := S (sink_errors cs) |}
  end.

Definition with_counters (cs : Counters) (r : Registry) : Registry :=
  {| counters := cs; unprocessable := unprocessable r;
     ack_failures := ack_failures r; recent_history := recent_history r |}.

(** Modelled from the spec: [increment(counter)]. *)
Definition increment (c : Counter) (r : Registry) : Registry :=
  with_counters (bump c (counters r)) r.

Definition count_unprocessable (r : Registry) : Registry :=
  {| counters := counters r; unprocessable := S (unprocessable r);
     ack_failures := ack_failures r; recent_history := recent_history r |}.

Definition count_ack_failure (r : Registry) : Registry :=
  {| counters := counters r; unprocessable := unprocessable r;
     ack_failures := S (ack_failures r); recent_history := recent_history r |}.

(** Append to a window of fixed capacity, oldest evicted first. *)
Definition push_bounded {A : Type} (capacity : nat) (x : A) (l : list A) : list A :=
  drop (length l + 1 - capacity) (l ++ [x]).

(** Modelled from the spec: [sample()], a timestamped copy of the
    counters appended to the rolling history. *)
Definition sample (capacity now : nat) (r : Registry) : Registry :=
  {| counters := counters r; unprocessable := unprocessable r;
     ack_failures := ack_failures r;
     recent_history :=
       push_bounded capacity {| sampled_at := now; sampled := counters r |}
                    (recent_history r) |}.

(** Modelled from the spec: [snapshot()], a read-only copy. *)
Definition snapshot (r : Registry) : Counters * list Sample :=
  (counters r, recent_history r).

(** Modelled from the spec: the control-plane [flush], which resets the
    counters. *)
Definition flush (r : Registry) : Registry := with_counters zero r.

(** Pointwise order on the three counters. *)
Definition counters_le (a b : Counters) : Prop :=
  messages_processed a <= messages_processed b
  /\ processing_errors a <= processing_errors b
  /\ sink_errors a <= sink_errors b.

(** *** The adapters, as the Engine sees them *)

(** Modelled from the spec: the answers of the collaborators.  The
    [n]-th external call of the Engine gets the answer at index [n]:
    [poll] a batch or a surfaced adapter error, [publish] whether the
    sink confirmed durable acceptance, [acknowledge] whether the source
    accepted the token; [validate] is the validation hook. *)
Record World : Type := mkWorld {
  validate : Message -> bool;
  poll : nat -> Error + list Message;
  publish : nat -> Message -> bool;
  acknowledge : nat -> Message -> bool
}.

(** Modelled from the spec: what the Engine did, in order: the external
    calls of steps 1, 4 and 5 with their answers, the refusals of step 3,
    and the loop being spawned and leaving. *)
Inductive Event : Type :=
  | Polled (answer : Error + list Message)
  | Refused (m : Message)
  | Dropped (m : Message)
  | PublishFailed (m : Message)
  | Confirmed (m : Message)
  | Acknowledge (m : Message) (accepted : bool)
  | LoopSpawned
  | LoopExited.

(** Modelled from the spec: where the poll loop stands in the
    per-iteration algorithm of section 4.3.  [Top] is the top of an
    iteration (step 1), [Validating] is step 3 over the rest of the batch,
    [Publishing] step 4 with the failed attempts on the head message so
    far, [Acknowledging] step 5 over the published messages; [Exited]
    means no loop is running. *)
Inductive Phase : Type :=
  | Top
  | Validating (todo valid : list Message)
  | Publishing (todo : list Message) (failures : nat) (published : list Message)
  | Acknowledging (todo : list Message)
  | Exited.

(** Modelled from the spec: the ProcessorState of section 3, with the
    loop's position, the cancellation flag of section 5, the number of
    external calls made, the number of loops ever spawned and the record of
    events. *)
Record State : Type := mkState {
  lifecycle : Lifecycle;
  started_at : option nat;
  last_error : option Error;
  registry : Registry;
  cancel : bool;
  phase : Phase;
  calls : nat;
  loops_spawned : nat;
  log : list Event
}.

(** Modelled from the spec: the initial state, [STOPPED]. *)
Definition init : State :=
  {| lifecycle := STOPPED; started_at := None; last_error := None;
     registry := empty; cancel := false; phase := Exited; calls := 0;
     loops_spawned := 0; log := [] |}.

(** One move of the loop: the new phase and registry, an error to record
    if any, the number of external calls made and the events. *)
Definition advance (s : State) (ph : Phase) (r : Registry) (err : option Error)
    (made : nat) (evs : list Event) : State :=
  {| lifecycle := lifecycle s; started_at := started_at s;
     last_error := match err with Some e => Some e | None => last_error s end;
     registry := r; cancel := cancel s; phase := ph;
     calls := calls s + made; loops_spawned := loops_spawned s;
     log := log s ++ evs |}.

(** The loop leaves: the Engine is [STOPPED]. *)
Definition exit_loop (s : State) : State :=
  {| lifecycle := STOPPED; started_at := started_at s; last_error := last_error s;
     registry := registry s; cancel := cancel s; phase := Exited;
     calls := calls s; loops_spawned := loops_spawned s;
     log := log s ++ [LoopExited] |}.

(** Modelled from the spec: one step of the poll loop (section 4.3, steps
    1 to 5; section 5 for cancellation). *)
Definition tick (cfg : Config) (w : World) (s : State) : State :=
  match phase s with
  | Exited => s
  | Top =>
      if cancel s then exit_loop s
      else
        match poll w (calls s) with
        | inl e => advance s Top (registry s) (Some e) 1 [Polled (inl e)]
        | inr ms =>
            match take (batch_size cfg) ms with
            | [] => advance s Top (registry s) None 1 [Polled (inr [])]
            | batch => advance s (Validating batch []) (registry s) None 1
                         [Polled (inr batch)]
            end
        end
  | Validating [] valid =>
      advance s (Publishing valid 0 []) (registry s) None 0 []
  | Validating (m :: todo) valid =>
      if validate w m then
        advance s (Validating todo (valid ++ [m])) (registry s) None 0 []
      else if poison_threshold cfg <? receive_count m then
        advance s (Validating todo valid)
          (count_unprocessable (increment ProcessingErrors (registry s)))
          (Some MessageFormatError) 0 [Refused m; Dropped m]
      else
        advance s (Validating todo valid)
          (increment ProcessingErrors (registry s))
          (Some MessageFormatError) 0 [Refused m]
  | Publishing [] _ published =>
      advance s (Acknowledging published) (registry s) None 0 []
  | Publishing (m :: todo) failures published =>
      if publish w (calls s) m then
        advance s (Publishing todo 0 (published ++ [m]))
          (increment MessagesProcessed (registry s)) None 1 [Confirmed m]
      else if S failures <=? publish_retry_limit cfg then
        advance s (Publishing (m :: todo) (S failures) published)
          (increment SinkErrors (registry s)) (Some PublishError) 1
          [PublishFailed m]
      else
        advance s (Publishing todo 0 published)
          (increment SinkErrors (registry s)) (Some PublishError) 1
          [PublishFailed m]
  | Acknowledging [] =>
      advance s Top (registry s) None 0 []
  | Acknowledging (m :: todo) =>
      if acknowledge w (calls s) m then
        advance s (Acknowledging todo) (registry s) None 1 [Acknowledge m true]
      else
        advance s (Acknowledging todo) (count_ack_failure (registry s))
          (Some AckError) 1 [Acknowledge m false]
  end.

Fixpoint ticks (cfg : Config) (w : World) (n : nat) (s : State) : State :=
  match n with
  | O => s
  | S n' => ticks cfg w n' (tick cfg w s)
  end.

(** *** The control surface *)

Inductive StartResult : Type :=
  | Started
  | StartFailed (e : Error)
  | AlreadyRunning
  | NotStopped (l : Lifecycle).

Inductive StopResult : Type := StopRequested | NotRunning.

Definition with_lifecycle (l : Lifecycle) (s : State) : State :=
  {| lifecycle := l; started_at := started_at s; last_error := last_error s;
     registry := registry s; cancel := cancel s; phase := phase s;
     calls := calls s; loops_spawned := loops_spawned s; log := log s |}.

(** [STARTING] to [RUNNING]: the loop is spawned at the top of its first
    iteration with the cancellation flag cleared. *)
Definition spawn_loop (now : nat) (s : State) : State :=
  {| lifecycle := RUNNING; started_at := Some now; last_error := last_error s;
     registry := registry s; cancel := false; phase := Top;
     calls := calls s; loops_spawned := S (loops_spawned s);
     log := log s ++ [LoopSpawned] |}.

(** [STARTING] back to [STOPPED], the error recorded. *)
Definition abort_start (e : Error) (s : State) : State :=
  {| lifecycle := STOPPED; started_at := started_at s; last_error := Some e;
     registry := registry s; cancel := cancel s; phase := phase s;
     calls := calls s; loops_spawned := loops_spawned s; log := log s |}.

(** Modelled from the spec: [start()].  From [STOPPED] the Engine passes
    through [STARTING] and, with [outcome] the result of bringing the
    adapters up, reaches [RUNNING] or returns to [STOPPED]; while
    [RUNNING] the call changes nothing and signals the conflict.  The
    specification leaves [start()] in the two transient states open; it is
    refused without effect. *)
Definition start (now : nat) (outcome : option Error) (s : State)
    : StartResult * State :=
  match lifecycle s with
  | STOPPED =>
      let starting := with_lifecycle STARTING s in
      match outcome with
      | None => (Started, spawn_loop now starting)
      | Some e => (StartFailed e, abort_start e starting)
      end
  | RUNNING => (AlreadyRunning, s)
  | STARTING => (NotStopped STARTING, s)
  | STOPPING => (NotStopped STOPPING, s)
  end.

(** Modelled from the spec: [stop()] while [RUNNING] moves to [STOPPING]
    and raises the cancellation flag; the loop does the rest. *)
Definition stop (s : State) : StopResult * State :=
  match lifecycle s with
  | RUNNING =>
      (StopRequested,
       {| lifecycle := STOPPING; started_at := started_at s;
          last_error := last_error s; registry := registry s; cancel := true;
          phase := phase s; calls := calls s;
          loops_spawned := loops_spawned s; log := log s |})
  | _ => (NotRunning, s)
  end.

Definition with_registry (r : Registry) (s : State) : State :=
  {| lifecycle := lifecycle s; started_at := started_at s;
     last_error := last_error s; registry := r; cancel := cancel s;
     phase := phase s; calls := calls s; loops_spawned := loops_spawned s;
     log := log s |}.

(** Modelled from the spec: [get_metrics()], a snapshot. *)
Definition get_metrics (s : State) : Counters * list Sample :=
  snapshot (registry s).

(** Modelled from the spec: everything that can happen to the Engine,
    serialized as section 5 asks: a step of its loop, a control-plane
    call, the sampling timer. *)
Inductive Action : Type :=
  | Tick
  | Start (now : nat) (outcome : option Error)
  | Stop
  | GetMetrics
  | TakeSample (now : nat)
  | Flush.

(** Modelled from the spec: the effect of one action. *)
Definition apply (cfg : Config) (w : World) (s : State) (a : Action) : State :=
  match a with
  | Tick => tick cfg w s
  | Start now outcome => snd (start now outcome s)
  | Stop => snd (stop s)
  | GetMetrics => s
  | TakeSample now => with_registry (sample (history_capacity cfg) now (registry s)) s
  | Flush => with_registry (flush (registry s)) s
  end.

(** Modelled from the spec: the state reached from the initial one
    ([STOPPED], no loop) by a schedule of actions. *)
Definition run (cfg : Config) (w : World) (schedule : list Action) : State :=
  foldl (apply cfg w) init schedule.

(** The data path: everything but the control-plane [flush]. *)
Definition on_data_path (a : Action) : bool :=
  match a with
  | Flush => false
  | _ => true
  end.

(** *** Observations on the record of events *)






Definition is_poll (e : Event) : bool :=
  match e with
  | Polled _ => true
  | _ => false
  end.

Definition count_events (f : Event -> bool) (l : list Event) : nat :=
  length (List.filter f l).




(** The messages the sink has confirmed and the loop still has to
    acknowledge. *)
Definition awaiting_ack (ph : Phase) : list Message :=
  match ph with
  | Publishing _ _ published => published
  | Acknowledging todo => todo
  | _ => []
  end.

Definition in_flight (ph : Phase) : bool :=
  match ph with
  | Validating _ _ | Publishing _ _ _ | Acknowledging _ => true
  | Top | Exited => false
  end.






(** An upper bound on the ticks the loop needs to finish the batch in
    flight. *)
Definition remaining (cfg : Config) (ph : Phase) : nat :=
  let per_message := publish_retry_limit cfg + 2 in
  match ph with
  | Top | Exited => 0
  | Validating todo valid =>
      length todo + 1 + (length todo + length valid) * (per_message + 1) + 2
  | Publishing [] _ published => length published + 2
  | Publishing (m :: todo) failures published =>
      S (publish_retry_limit cfg + 1 - failures) + length todo * per_message
      + (length published + S (length todo)) + 2
  | Acknowledging todo => length todo + 1
  end.




Definition is_loop_exit (e : Event) : bool :=
  match e with
  | LoopExited => true
  | _ => false
  end.

(** The poll loops alive: 1 unless the loop has exited. *)
Definition loops_alive (ph : Phase) : nat :=
  match ph with
  | Exited => 0
  | _ => 1
  end.


(** A small deployment used in the examples: five messages per poll, the
    third malformed and delivered [deliveries] times. *)
Definition demo_cfg : Config :=
  {| batch_size := 10; publish_retry_limit := 3; poison_threshold := 5;
     history_capacity := 10; sink_topic := "events" |}.

Definition demo_message (k deliveries : nat) : Message :=
  {| id := k; body := "payload"; ack_token := k; receive_count := deliveries;
     enqueued_at := 0; received_at := 0 |}.

Definition demo_world (deliveries : nat) (sink : nat -> Message -> bool) : World :=
  {| validate := fun m => negb (id m =? 3);
     poll := fun _ => inr [demo_message 1 1; demo_message 2 1;
                           demo_message 3 deliveries;
                           demo_message 4 1; demo_message 5 1];
     publish := sink;
     acknowledge := fun _ _ => true |}.

Definition healthy_sink : nat -> Message -> bool := fun _ _ => true.


(** The Engine right after a successful [start()]. *)
Definition started : State := snd (start 0 None init).

(** Lifecycle, loop and cancellation flag agree. *)
Definition consistent (s : State) : Prop :=
  match lifecycle s with
  | STOPPED => phase s = Exited
  | STARTING => False
  | RUNNING => phase s <> Exited /\ cancel s = false
  | STOPPING => phase s <> Exited /\ cancel s = true
  end.

End Engine.

(* ===================================================================== *)
(** ** More of the front end                                               *)
(* ===================================================================== *)

Module JsMore.

(** What a user types for the number [n]: its decimal digits. *)
Definition decimal (n : nat) : string :=
  DecimalString.NilEmpty.string_of_uint (Nat.to_uint n).

(** The text does not go on with a digit. *)
Definition no_leading_digit (rest : string) : bool :=
  match rest with
  | EmptyString => true
  | String c _ => match Js.digit_value c with Some _ => false | None => true end
  end.

(** [v || fallback] for [v] a string or [undefined]: the empty string and
    [undefined] are falsy. *)
Definition or_default (v : option string) (fallback : string) : string :=
  match v with
  | Some s => if String.eqb s EmptyString then fallback else s
  | None => fallback
  end.

Local Unset Elimination Schemes.

(** A parsed JSON value. *)
Inductive Json : Type :=
  | JNull
  | JBool (b : bool)
  | JNum (z : Z)
  | JStr (s : string)
  | JArr (items : list Json)
  | JObj (fields : list (string * Json)).

Local Set Elimination Schemes.

(** Truthiness: [null], [false], [0] and the empty string are falsy. *)
Definition truthy (v : Json) : bool :=
  match v with
  | JNull => false
  | JBool b => b
  | JNum z => negb (z =? 0)
  | JStr s => negb (String.eqb s EmptyString)
  | JArr _ | JObj _ => true
  end.

Fixpoint assoc (key : string) (fields : list (string * Json)) : option Json :=
  match fields with
  | [] => None
  | (k, v) :: rest => if String.eqb k key then Some v else assoc key rest
  end.

(** [v.key] for a non-null value: an own property of an object,
    [undefined] otherwise. *)
Definition get (v : Json) (key : string) : option Json :=
  match v with
  | JObj fields => assoc key fields
  | _ => None
  end.

End JsMore.

(* --------------------------------------------------------------------- *)
(** *** The Topics page around the form                                    *)
(* --------------------------------------------------------------------- *)

Module TopicsPage.

(** Names the form accepts: not empty, over the alphabet of the form's
    regular expression. *)
Definition accepted_name (s : string) : Prop :=
  s <> EmptyString /\ forallb Topics.grammar_char (list_ascii_of_string s) = true.

(** The component state: the form of [Topics.State] with the topic list,
    the loading flag and the page error. *)
Record State : Type := mkState {
  form : Topics.State;
  topics : list string;
  loading : bool;
  error : option string
}.

Definition with_form (f : Topics.State) (st : State) : State :=
  {| form := f; topics := topics st; loading := loading st; error := error st |}.

(** [handleCloseDialog]. *)
Definition handleCloseDialog (st : State) : State :=
  with_form {| Topics.newTopic := Topics.newTopic (form st);
               Topics.formError := Topics.formError (form st);
               Topics.openDialog := false |} st.

(** The answer to [ApiService.getTopics]: the [topics] field of the
    payload (possibly missing), or a failure. *)
Inductive TopicsAnswer : Type :=
  | Listed (payload_topics : option (list string))
  | ListFailed.

(** [fetchTopics]: [response.data.topics || []] on success (an array is
    truthy, also when empty), the page error on failure. *)
Definition fetchTopics (answer : TopicsAnswer) (st : State) : State :=
  match answer with
  | Listed ts =>
      {| form := form st; topics := default [] ts; loading := false; error := None |}
  | ListFailed =>
      {| form := form st; topics := topics st; loading := false;
         error := Some "Failed to fetch Kafka topics. Please try again later."%string |}
  end.

(** The answer to [ApiService.createTopic]: success, or a failure with
    [err.response?.data?.error]. *)
Inductive CreateAnswer : Type :=
  | Created
  | CreateFailed (server_error : option string).

(** [handleCreateTopic] to its end: nothing is sent when the form does
    not validate; on success the dialog closes and the list is fetched
    again; on failure the form shows the server's error or the default
    one.  The first component is the request sent, if any. *)
Definition handleCreateTopic (create : Topics.NewTopic -> CreateAnswer)
    (refetch : TopicsAnswer) (st : State) : option Topics.NewTopic * State :=
  let '(ok, f) := Topics.validateForm (form st) in
  if ok then
    match create (Topics.newTopic f) with
    | Created =>
        (Some (Topics.newTopic f),
         fetchTopics refetch (handleCloseDialog (with_form f st)))
    | CreateFailed e =>
        (Some (Topics.newTopic f),
         with_form (Topics.setFormError
                      (JsMore.or_default e "Failed to create topic. Please try again.")
                      f) st)
    end
  else (None, with_form f st).

(** A page listing one topic, around a given form. *)
Definition page_with (f : Topics.State) : State :=
  {| form := f; topics := ["events"%string]; loading := false; error := None |}.

End TopicsPage.

(* --------------------------------------------------------------------- *)
(** *** The AdminLogin page                                                *)
(* --------------------------------------------------------------------- *)

Module AdminLogin.

Record Credentials : Type := mkCredentials {
  username : string;
  password : string
}.

Record State : Type := mkState {
  credentials : Credentials;
  showPassword : bool;
  error : string;
  loading : bool
}.

Definition initial : State :=
  {| credentials := {| username := EmptyString; password := EmptyString |};
     showPassword := false; error := EmptyString; loading := false |}.

Inductive field : Type := FUsername | FPassword.

(** [handleChange]. *)
Definition handleChange (f : field) (value : string) (st : State) : State :=
  let c := credentials st in
  {| credentials :=
       match f with
       | FUsername => {| username := value; password := password c |}
       | FPassword => {| username := username c; password := value |}
       end;
     showPassword := showPassword st; error := error st; loading := loading st |}.

(** [handleClickShowPassword]. *)
Definition handleClickShowPassword (st : State) : State :=
  {| credentials := credentials st; showPassword := negb (showPassword st);
     error := error st; loading := loading st |}.

Section Submit.

(** The values the server sends for [role] and [token]. *)
Variable V : Type.

(** The object handed to [onLogin]. *)
Record User : Type := mkUser {
  user_name : string;
  role : V;
  token : V
}.

(** The answer to [ApiService.login]: [response.data.role] and
    [response.data.token], or a failure with
    [err.response?.data?.error]. *)
Inductive LoginAnswer : Type :=
  | LoggedIn (r t : V)
  | LoginFailed (server_error : option string).

(** What [handleSubmit] did: the final state, the credentials sent to the
    API and the user given to [onLogin], if any. *)
Record Submitted : Type := mkSubmitted {
  final : State;
  sent : option Credentials;
  logged_in : option User
}.

(** [handleSubmit]: both fields are required before anything is sent;
    the error is cleared for the attempt and set again on failure;
    [finally] takes the loading flag down. *)
Definition handleSubmit (login : Credentials -> LoginAnswer) (st : State) : Submitted :=
  let c := credentials st in
  if (String.eqb (username c) EmptyString || String.eqb (password c) EmptyString)%bool then
    {| final := {| credentials := c; showPassword := showPassword st;
                   error := "Username and password are required";
                   loading := loading st |};
       sent := None; logged_in := None |}
  else
    match login c with
    | LoggedIn r t =>
        {| final := {| credentials := c; showPassword := showPassword st;
                       error := EmptyString; loading := false |};
           sent := Some c;
           logged_in := Some {| user_name := username c; role := r; token := t |} |}
    | LoginFailed e =>
        {| final := {| credentials := c; showPassword := showPassword st;
                       error := JsMore.or_default e "Invalid username or password";
                       loading := false |};
           sent := Some c; logged_in := None |}
    end.

End Submit.

(** The form with both fields typed. *)
Definition filled (u p : string) : State :=
  handleChange FPassword p (handleChange FUsername u initial).

End AdminLogin.

(* --------------------------------------------------------------------- *)
(** *** ApiService: the request interceptor                                *)
(* --------------------------------------------------------------------- *)

Module RequestInterceptor.

Record Config : Type := mkConfig {
  url : string;
  headers : gmap string string
}.

Section Interceptor.

(** [JSON.parse] on a stored string ([None]: it throws), and the string
    a template literal gives for a value that is not a string. *)
Variable JSON_parse : string -> option JsMore.Json.
Variable to_string : JsMore.Json -> string.

Definition interpolate (v : JsMore.Json) : string :=
  match v with
  | JsMore.JStr s => s
  | _ => to_string v
  end.

(** The fulfilled handler of [axios.interceptors.request.use]; [None]
    when [JSON.parse] throws.  [getItem] gives [null] for a missing item
    and [JSON.parse(null)] is [null]. *)
Definition onRequest (storage : gmap string string) (config : Config)
    : option Config :=
  let parsed :=
    match storage !! "user"%string with
    | Some stored => JSON_parse stored
    | None => Some JsMore.JNull
    end in
  match parsed with
  | None => None
  | Some user =>
      if JsMore.truthy user then
        match JsMore.get user "token" with
        | Some t =>
            if JsMore.truthy t then
              Some {| url := url config;
                      headers := <["Authorization"%string :=
                                     ("Bearer " ++ interpolate t)%string]>
                                   (headers config) |}
            else Some config
        | None => Some config
        end
      else Some config
  end.

End Interceptor.

(** A storage holding [stored] under [user]. *)
Definition storing (stored : string) : gmap string string :=
  <["user"%string := stored]> ∅.

(** A request to the topics endpoint carrying one header. *)
Definition plain_request : Config :=
  {| url := "/topics"; headers := <["Accept"%string := "application/json"%string]> ∅ |}.

End RequestInterceptor.

(* --------------------------------------------------------------------- *)
(** *** The Sidebar                                                        *)
(* --------------------------------------------------------------------- *)

Module Sidebar.

Record item : Type := mkItem {
  name : string;
  path : string
}.

Definition menuItems : list item :=
  [ {| name := "Dashboard"; path := "/" |};
    {| name := "Stream Status"; path := "/status" |};
    {| name := "Kafka Topics"; path := "/topics" |};
    {| name := "Streaming Apps"; path := "/apps" |};
    {| name := "Help"; path := "/help" |} ].

Definition adminItems : list item :=
  [ {| name := "Admin Dashboard"; path := "/admin/dashboard" |} ].

(** [localStorage.getItem('user') !== null]. *)
Definition isLoggedIn (storage : gmap string string) : bool :=
  match storage !! "user"%string with
  | Some _ => true
  | None => false
  end.

(** The links the drawer shows. *)
Definition shown (storage : gmap string string) : list item :=
  menuItems ++ (if isLoggedIn storage then adminItems else []).

(** [location.pathname === item.path]. *)
Definition selected (pathname : string) (it : item) : bool :=
  String.eqb pathname (path it).

End Sidebar.

(* --------------------------------------------------------------------- *)
(** *** The Dashboard page around the chart                                *)
(* --------------------------------------------------------------------- *)

Module DashboardPage.

(** The metrics payload: the two fields the chart reads and the two the
    cards read. *)
Record Payload : Type := mkPayload {
  counts : Dashboard.Metrics;
  last_processing_time : option string;
  stream_status : string
}.

Record State : Type := mkState {
  metrics : Payload;
  chartData : Dashboard.ChartData;
  loading : bool;
  error : option string
}.

Definition initial : State :=
  {| metrics := {| counts := Dashboard.mkMetrics 0 0;
                   last_processing_time := None;
                   stream_status := "stopped" |};
     chartData := Dashboard.initialChartData;
     loading := true;
     error := None |}.

Definition setError (msg : string) (st : State) : State :=
  {| metrics := metrics st; chartData := chartData st; loading := loading st;
     error := Some msg |}.

(** [fetchMetrics]: [answer] is the payload of [ApiService.getMetrics],
    [None] when the request fails; [now] is the time label. *)
Definition fetchMetrics (now : string) (answer : option Payload) (st : State) : State :=
  match answer with
  | Some d =>
      {| metrics := d;
         chartData := Dashboard.updateChartData now (counts d) (chartData st);
         loading := false;
         error := error st |}
  | None =>
      {| metrics := metrics st; chartData := chartData st; loading := false;
         error := Some "Failed to fetch metrics. Please try again later."%string |}
  end.

(** [handleStartStream] and [handleStopStream]: the metrics are fetched
    again only when the call succeeded. *)
Definition handleStartStream (started : bool) (now : string)
    (answer : option Payload) (st : State) : State :=
  if started then fetchMetrics now answer st
  else setError "Failed to start stream. Please try again later." st.

Definition handleStopStream (stopped : bool) (now : string)
    (answer : option Payload) (st : State) : State :=
  if stopped then fetchMetrics now answer st
  else setError "Failed to stop stream. Please try again later." st.

(** What happens on the page: the polling timer and the two buttons. *)
Inductive event : Type :=
  | Poll (now : string) (answer : option Payload)
  | StartStream (started : bool) (now : string) (answer : option Payload)
  | StopStream (stopped : bool) (now : string) (answer : option Payload).

Definition handle (st : State) (e : event) : State :=
  match e with
  | Poll now a => fetchMetrics now a st
  | StartStream ok now a => handleStartStream ok now a st
  | StopStream ok now a => handleStopStream ok now a st
  end.

Definition after (es : list event) : State := foldl handle initial es.

(** The sample an event adds to the chart, if any. *)
Definition sample_of (e : event) : option (string * Dashboard.Metrics) :=
  match e with
  | Poll now (Some d) | StartStream true now (Some d) | StopStream true now (Some d) =>
      Some (now, counts d)
  | _ => None
  end.

(** An event that sets the page error. *)
Definition fails (e : event) : bool :=
  match e with
  | Poll _ None | StartStream false _ _ | StopStream false _ _
  | StartStream true _ None | StopStream true _ None => true
  | _ => false
  end.

(** The button under the status: Stop when running, Start otherwise. *)
Definition showsStop (st : State) : bool :=
  String.eqb (stream_status (metrics st)) "running".

End DashboardPage.

(* --------------------------------------------------------------------- *)
(** *** The StreamingStatus page                                           *)
(* --------------------------------------------------------------------- *)

Module StreamingStatus.

Record Metrics : Type := mkMetrics {
  messages_processed : Z;
  processing_errors : Z;
  last_processing_time : option string;
  kafka_send_errors : Z;
  stream_status : string
}.

Record Health : Type := mkHealth {
  status : string;
  sqs_connected : bool;
  kafka_connected : bool
}.

Record State : Type := mkState {
  metrics : Metrics;
  healthStatus : Health;
  loading : bool;
  error : option string;
  lastUpdated : option string
}.

Definition initial : State :=
  {| metrics := {| messages_processed := 0; processing_errors := 0;
                   last_processing_time := None; kafka_send_errors := 0;
                   stream_status := "stopped" |};
     healthStatus := {| status := "unknown"; sqs_connected := false;
                        kafka_connected := false |};
     loading := true; error := None; lastUpdated := None |}.

(** [fetchData]: [Promise.all] of the two requests; either failing takes
    the [catch] branch. *)
Definition fetchData (now : string) (metricsAnswer : option Metrics)
    (healthAnswer : option Health) (st : State) : State :=
  match metricsAnswer, healthAnswer with
  | Some m, Some h =>
      {| metrics := m; healthStatus := h; loading := false; error := None;
         lastUpdated := Some now |}
  | _, _ =>
      {| metrics := metrics st; healthStatus := healthStatus st; loading := false;
         error := Some "Failed to fetch streaming status. Please try again later."%string;
         lastUpdated := lastUpdated st |}
  end.

Definition after (polls : list (string * option Metrics * option Health)) : State :=
  foldl (fun st p => fetchData (fst (fst p)) (snd (fst p)) (snd p) st) initial polls.

(** A poll in which both requests succeeded, with its time and data. *)
Definition good (p : string * option Metrics * option Health)
    : option (string * Metrics * Health) :=
  match p with
  | (now, Some m, Some h) => Some (now, m, h)
  | _ => None
  end.

(** The API status label. *)
Definition apiStatus (st : State) : string :=
  if String.eqb (status (healthStatus st)) "healthy" then "HEALTHY" else "UNHEALTHY".

End StreamingStatus.

(* --------------------------------------------------------------------- *)
(** *** The AdminDashboard configuration form                              *)
(* --------------------------------------------------------------------- *)

Module AdminDashboard.

(** A configuration value: the text fields and the debug switch. *)
Inductive value : Type :=
  | Text (s : string)
  | Flag (b : bool).

(** [config]: sections of fields. *)
Record State : Type := mkState {
  config : gmap string (gmap string value);
  saveSuccess : bool;
  activeTab : string
}.

(** [handleConfigChange]: the field is set in a copy of its section (an
    empty one when the section is missing) and the success notice goes. *)
Definition handleConfigChange (section field : string) (v : value) (st : State) : State :=
  {| config := <[section := <[field := v]> (default ∅ (config st !! section))]> (config st);
     saveSuccess := false;
     activeTab := activeTab st |}.

(** [handleSaveConfig], after its simulated call. *)
Definition handleSaveConfig (st : State) : State :=
  {| config := config st; saveSuccess := true; activeTab := activeTab st |}.

(** [config[section][field]]. *)
Definition read (section field : string) (st : State) : option value :=
  config st !! section ≫= fun sec => sec !! field.

(** A configuration with one section. *)
Definition sample_config : State :=
  {| config := <["kafka"%string := <["topic"%string := Text "sqs-data"]> ∅]> ∅;
     saveSuccess := true; activeTab := "config" |}.

End AdminDashboard.

(* ===================================================================== *)
(** ** Theorems                                                            *)
(* ===================================================================== *)

(** *** The create-topic form *)

(** The character class of the form's regular expression is the
    grammar's alphabet. *)
Lemma topic_class_is_grammar_char (c : ascii) :
  Js.class_matches Topics.topic_name_class c = Topics.grammar_char c.
Proof.
  destruct c as [[] [] [] [] [] [] [] []]; reflexivity.
Qed.

Lemma all_in_class_forallb (s : string) :
  Js.all_in_class Topics.topic_name_class s
  = forallb Topics.grammar_char (list_ascii_of_string s).
Proof.
  induction s as [|c s IH]; [reflexivity|].
  cbn [Js.all_in_class list_ascii_of_string forallb].
  now rewrite topic_class_is_grammar_char, IH.
Qed.

(** X21.  What [validateForm] does decide: it fails exactly when the name
    is empty or has a character outside the alphabet, or a count is a
    number below 1. *)
Lemma validateForm_false_iff (st : Topics.State) :
  let t := Topics.newTopic st in
  fst (Topics.validateForm st) = false <->
  (Topics.name t = EmptyString
   \/ forallb Topics.grammar_char (list_ascii_of_string (Topics.name t)) = false
   \/ (exists p, Topics.partitions t = Js.Num p /\ p < 1)
   \/ (exists r, Topics.replication t = Js.Num r /\ r < 1)).
Proof.
  destruct st as [[n p r] fe od]; cbn [Topics.newTopic Topics.name
    Topics.partitions Topics.replication].
  unfold Topics.validateForm; cbn [Topics.newTopic Topics.name
    Topics.partitions Topics.replication].
  destruct n as [|c n].
  - cbn. split; [intros _; now left | reflexivity].
  - cbn [String.eqb]. unfold Js.test_class_plus.
    rewrite all_in_class_forallb.
    destruct (forallb Topics.grammar_char (list_ascii_of_string (String c n))) eqn:Hc;
      cbn [negb fst].
    + destruct p as [|p]; destruct r as [|r]; cbn [Js.lt].
      * split; [discriminate|].
        intros [H|[H|[(x & H & _)|(x & H & _)]]]; discriminate.
      * destruct (r <? 1) eqn:Hr; cbn [fst].
        -- split; [intros _|reflexivity].
           right; right; right. exists r. split; [reflexivity|lia].
        -- split; [discriminate|].
           intros [H|[H|[(x & H & _)|(x & H & Hx)]]]; try discriminate.
           injection H as <-. lia.
      * destruct (p <? 1) eqn:Hp; cbn [fst].
        -- split; [intros _|reflexivity].
           right; right; left. exists p. split; [reflexivity|lia].
        -- split; [discriminate|].
           intros [H|[H|[(x & H & Hx)|(x & H & _)]]]; try discriminate.
           injection H as <-. lia.
      * destruct (p <? 1) eqn:Hp; cbn [fst].
        -- split; [intros _|reflexivity].
           right; right; left. exists p. split; [reflexivity|lia].
        -- destruct (r <? 1) eqn:Hr; cbn [fst].
           ++ split; [intros _|reflexivity].
              right; right; right. exists r. split; [reflexivity|lia].
           ++ split; [discriminate|].
              intros [H|[H|[(x & H & Hx)|(x & H & Hx)]]]; try discriminate;
                injection H as <-; lia.
    + split; [intros _; right; now left | reflexivity].
Qed.

(** C1 (the code departs from the claim).  The form validation accepts
    topic names the naming grammar forbids: [.], [..], a name of 250
    characters and a name starting with [_] or [.] all pass
    [validateForm] with partitions and replication 3, and
    [handleCreateTopic] submits them to the create-topic API, although the
    specification (and the user guide's validation rules) reject them. *)
Theorem validateForm_accepts_forbidden_names :
  Forall (fun n =>
            Topics.spec_invalid (Topics.newTopic (Topics.form n 3 3)) = true
            /\ fst (Topics.validateForm (Topics.form n 3 3)) = true
            /\ fst (Topics.handleCreateTopic (Topics.form n 3 3))
               = Some (Topics.mkNewTopic n (Js.Num 3) (Js.Num 3)))
         ["."%string; ".."%string; Topics.long_name; "_orders"%string;
          ".hidden"%string].
Proof.
  repeat constructor; vm_compute; reflexivity.
Qed.

(** C8.  A grammar-valid name with an emptied (or non-numeric) partitions
    or replication field passes [validateForm]: [parseInt] yields [NaN],
    [NaN < 1] is false, and the request with the [NaN] count is submitted
    to the create-topic API. *)
Theorem validateForm_accepts_NaN_counts :
  let opened := Topics.handleOpenDialog (Topics.form EmptyString 3 3) in
  let named := Topics.handleInputChange Topics.FName "orders" opened in
  let cleared := Topics.handleInputChange Topics.FPartitions EmptyString named in
  let typed := Topics.handleInputChange Topics.FReplication "abc" named in
  Js.parseInt10 EmptyString = Js.NaN
  /\ Js.parseInt10 "abc" = Js.NaN
  /\ Js.lt Js.NaN (Js.Num 1) = false
  /\ Topics.grammar_name_ok "orders" = true
  /\ Topics.partitions (Topics.newTopic cleared) = Js.NaN
  /\ fst (Topics.validateForm cleared) = true
  /\ fst (Topics.handleCreateTopic cleared)
     = Some (Topics.mkNewTopic "orders" Js.NaN (Js.Num 3))
  /\ Topics.replication (Topics.newTopic typed) = Js.NaN
  /\ fst (Topics.validateForm typed) = true
  /\ fst (Topics.handleCreateTopic typed)
     = Some (Topics.mkNewTopic "orders" (Js.Num 3) Js.NaN).
Proof.
  vm_compute. repeat split; reflexivity.
Qed.

(** *** The chart window of the Dashboard *)

Lemma slice_last_ten {A : Type} (l : list A) :
  Js.slice (-10) l = drop (length l - 10) l.
Proof.
  unfold Js.slice. cbn [Z.ltb Z.compare]. f_equal. lia.
Qed.

Lemma most_recent_drop {A : Type} (n : nat) (l : list A) :
  Dashboard.most_recent n l = drop (length l - n) l.
Proof.
  unfold Dashboard.most_recent. rewrite firstn_rev. apply rev_involutive.
Qed.

Lemma slice_length_le {A : Type} (l : list A) :
  (length (Js.slice (-10) l) <= 10)%nat.
Proof.
  rewrite slice_last_ten, length_drop. lia.
Qed.

(** Appending to the window and cutting again is the same as cutting the
    whole history once. *)
Lemma most_recent_snoc {A : Type} (h : list A) (x : A) :
  Js.slice (-10) (Dashboard.most_recent 10 h ++ [x])
  = Dashboard.most_recent 10 (h ++ [x]).
Proof.
  rewrite slice_last_ten, !most_recent_drop, !length_app, length_drop.
  cbn [length].
  destruct (decide (length h <= 10)%nat) as [Hle|Hgt].
  - replace (length h - 10)%nat with 0%nat by lia. rewrite drop_0.
    f_equal. lia.
  - replace (length h - (length h - 10) + 1 - 10)%nat with 1%nat by lia.
    rewrite drop_app_le by (rewrite length_drop; lia).
    rewrite drop_drop.
    rewrite (drop_app_le h [x]) by lia.
    do 2 f_equal. lia.
Qed.

(** A full window loses its oldest entry, and nothing else. *)
Lemma slice_full_evicts_oldest {A : Type} (l : list A) (x : A) :
  length l = 10%nat -> Js.slice (-10) (l ++ [x]) = tail l ++ [x].
Proof.
  intros Hl. rewrite slice_last_ten, length_app, Hl. cbn [length Nat.add Nat.sub].
  destruct l as [|y l]; [discriminate|]. reflexivity.
Qed.

Lemma after_polls_snoc (polls : list (string * Dashboard.Metrics)) now m :
  Dashboard.after_polls (polls ++ [(now, m)])
  = Dashboard.updateChartData now m (Dashboard.after_polls polls).
Proof.
  unfold Dashboard.after_polls. rewrite foldl_app. reflexivity.
Qed.

Lemma after_polls_recent (polls : list (string * Dashboard.Metrics)) :
  let c := Dashboard.after_polls polls in
  Dashboard.labels c = Dashboard.most_recent 10 (map fst polls)
  /\ Dashboard.data (Dashboard.datasets0 c)
     = Dashboard.most_recent 10 (map (fun p => Dashboard.messages_processed (snd p)) polls)
  /\ Dashboard.data (Dashboard.datasets1 c)
     = Dashboard.most_recent 10 (map (fun p => Dashboard.processing_errors (snd p)) polls).
Proof.
  induction polls as [|[now m] polls IH] using rev_ind.
  - repeat split.
  - rewrite after_polls_snoc. destruct IH as (IH1 & IH2 & IH3).
    cbn zeta. unfold Dashboard.updateChartData.
    cbn [Dashboard.labels Dashboard.datasets0 Dashboard.datasets1
         Dashboard.with_data Dashboard.data].
    rewrite IH1, IH2, IH3, !map_app. cbn [map fst snd].
    rewrite !most_recent_snoc. repeat split.
Qed.

(** C5.  The chart keeps a window of fixed capacity 10 over the polled
    samples: after any sequence of polls no list is longer than the
    capacity, each holds the most recent samples in their order, and an
    append to a full window evicts exactly the oldest entry. *)
Theorem chart_window_is_ring_buffer (polls : list (string * Dashboard.Metrics)) :
  let c := Dashboard.after_polls polls in
  ((length (Dashboard.labels c) <= Dashboard.window)%nat
   /\ (length (Dashboard.data (Dashboard.datasets0 c)) <= Dashboard.window)%nat
   /\ (length (Dashboard.data (Dashboard.datasets1 c)) <= Dashboard.window)%nat)
  /\ (Dashboard.labels c = Dashboard.most_recent Dashboard.window (map fst polls)
      /\ Dashboard.data (Dashboard.datasets0 c)
         = Dashboard.most_recent Dashboard.window
             (map (fun p => Dashboard.messages_processed (snd p)) polls)
      /\ Dashboard.data (Dashboard.datasets1 c)
         = Dashboard.most_recent Dashboard.window
             (map (fun p => Dashboard.processing_errors (snd p)) polls))
  /\ (forall now m,
        length (Dashboard.labels c) = Dashboard.window ->
        let c' := Dashboard.updateChartData now m c in
        Dashboard.labels c' = tail (Dashboard.labels c) ++ [now]
        /\ Dashboard.data (Dashboard.datasets0 c')
           = tail (Dashboard.data (Dashboard.datasets0 c))
             ++ [Dashboard.messages_processed m]
        /\ Dashboard.data (Dashboard.datasets1 c')
           = tail (Dashboard.data (Dashboard.datasets1 c))
             ++ [Dashboard.processing_errors m]).
Proof.
  cbn zeta. unfold Dashboard.window.
  pose proof (after_polls_recent polls) as (H1 & H2 & H3).
  assert (Hlen : forall (A : Type) (l : list A),
             (length (Dashboard.most_recent 10 l) <= 10)%nat).
  { intros A l. rewrite most_recent_drop, length_drop. lia. }
  split; [|split].
  - rewrite H1, H2, H3. auto.
  - auto.
  - intros now m Hfull.
    assert (Hn : (10 <= length polls)%nat).
    { rewrite H1, most_recent_drop, length_drop, length_map in Hfull. lia. }
    unfold Dashboard.updateChartData.
    cbn [Dashboard.labels Dashboard.datasets0 Dashboard.datasets1
         Dashboard.with_data Dashboard.data].
    repeat split; apply slice_full_evicts_oldest.
    + exact Hfull.
    + rewrite H2, most_recent_drop, length_drop, length_map. lia.
    + rewrite H3, most_recent_drop, length_drop, length_map. lia.
Qed.

Lemma chart_window_is_ring_buffer_witness :
  Dashboard.data (Dashboard.datasets0
    (Dashboard.updateChartData "t" (Dashboard.mkMetrics 11 0)
       (Dashboard.after_polls Dashboard.ten_polls)))
  = tail (Dashboard.data (Dashboard.datasets0 (Dashboard.after_polls Dashboard.ten_polls)))
    ++ [11].
Proof.
  apply (proj2 (proj2 (chart_window_is_ring_buffer Dashboard.ten_polls))
           "t"%string (Dashboard.mkMetrics 11 0)).
  reflexivity.
Defined.

(** *** The response interceptor *)

(** C9.  A response with status 401 makes the interceptor remove the
    stored [user] entry (and no other) and point the browser at
    /admin/login, the error still being rejected; for an error with any
    other status, or with no response, the error is rejected unchanged and
    the browser is not touched. *)
Theorem interceptor_401_signs_out :
  (forall (r : ApiService.Response) (b : ApiService.Browser),
      ApiService.status r = 401 ->
      let e := ApiService.mkAxiosError (Some r) in
      ApiService.receive r b = (ApiService.Rejected e, ApiService.signed_out b)
      /\ ApiService.onRejected e b = (ApiService.Rejected e, ApiService.signed_out b)
      /\ ApiService.localStorage (ApiService.signed_out b) !! "user"%string = None
      /\ (forall k : string, k <> "user"%string ->
            ApiService.localStorage (ApiService.signed_out b) !! k
            = ApiService.localStorage b !! k)
      /\ ApiService.location_href (ApiService.signed_out b) = "/admin/login"%string)
  /\ (forall (e : ApiService.AxiosError) (b : ApiService.Browser),
        (forall r, ApiService.response e = Some r -> ApiService.status r <> 401) ->
        ApiService.onRejected e b = (ApiService.Rejected e, b)).
Proof.
  split.
  - intros r b H401 e. unfold ApiService.receive, ApiService.validateStatus.
    rewrite H401. cbn [Z.leb Z.ltb Z.compare Pos.compare Pos.compare_cont andb].
    assert (He : ApiService.onRejected e b = (ApiService.Rejected e, ApiService.signed_out b)).
    { unfold ApiService.onRejected, e. cbn [ApiService.response].
      rewrite H401. reflexivity. }
    repeat split; try exact He.
    + unfold ApiService.signed_out. cbn [ApiService.localStorage]. apply lookup_delete_eq.
    + intros k Hk. unfold ApiService.signed_out. cbn [ApiService.localStorage].
      apply lookup_delete_ne. congruence.
  - intros e b Hother. unfold ApiService.onRejected.
    destruct (ApiService.response e) as [r|] eqn:Hr; [|reflexivity].
    specialize (Hother r eq_refl).
    destruct (ApiService.status r =? 401) eqn:Hs; [|reflexivity].
    apply Z.eqb_eq in Hs. contradiction.
Qed.

Lemma interceptor_401_signs_out_witness :
  ApiService.receive (ApiService.mkResponse 401 EmptyString) ApiService.stored_session
  = (ApiService.Rejected (ApiService.mkAxiosError (Some (ApiService.mkResponse 401 EmptyString))),
     ApiService.signed_out ApiService.stored_session)
  /\ ApiService.onRejected
       (ApiService.mkAxiosError (Some (ApiService.mkResponse 500 EmptyString))) ApiService.stored_session
     = (ApiService.Rejected (ApiService.mkAxiosError (Some (ApiService.mkResponse 500 EmptyString))),
        ApiService.stored_session).
Proof.
  split.
  - apply (proj1 interceptor_401_signs_out (ApiService.mkResponse 401 EmptyString)
             ApiService.stored_session).
    reflexivity.
  - apply (proj2 interceptor_401_signs_out).
    intros r Hr. injection Hr as <-. cbn. lia.
Defined.

(** *** The route table *)

Lemma route_unknown (b : bool) (path : string) :
  App.unknown path = true -> App.route b path = App.Navigate "/".
Proof.
  unfold App.unknown, App.routes. cbn [forallb fst].
  rewrite !andb_true_iff, !negb_true_iff.
  intros (H1 & H2 & H3 & H4 & H5 & H6 & H7 & _).
  unfold App.route, App.routes. cbn [App.first_match].
  rewrite H1, H2, H3, H4, H5, H6, H7. reflexivity.
Qed.

(** What a route can evaluate to. *)
Lemma route_cases (b : bool) (path : string) :
  App.route b path = App.Navigate "/"
  \/ (exists p, App.route b path = App.Render p /\ (p = App.AdminDashboard -> b = true))
  \/ (b = true /\ App.route b path = App.Navigate "/admin/dashboard")
  \/ (b = false /\ App.route b path = App.Navigate "/admin/login").
Proof.
  unfold App.route, App.routes. cbn [App.first_match].
  repeat match goal with
         | |- context [if App.matchPath ?p path then _ else _] =>
             destruct (App.matchPath p path)
         end;
    try (right; left; eexists; split; [reflexivity | discriminate]);
    try (left; reflexivity);
    destruct b;
    try (right; left; eexists; split; [reflexivity | (discriminate || reflexivity)]);
    try (right; right; left; split; reflexivity);
    try (right; right; right; split; reflexivity).
Qed.

Lemma logged_in_has_user (User : Type) (stringify : User -> string)
    (es : list (App.event User)) (st : App.State) :
  (App.isLoggedIn st = true -> is_Some (App.localStorage st !! "user"%string)) ->
  let st' := foldl (App.handle User stringify) st es in
  App.isLoggedIn st' = true -> is_Some (App.localStorage st' !! "user"%string).
Proof.
  revert st. induction es as [|e es IH]; intros st Hst; [exact Hst|].
  cbn [foldl]. apply IH. destruct e; cbn; intros H.
  - rewrite lookup_insert_eq. eauto.
  - discriminate.
  - auto.
Qed.

(** C10.  Whatever the path and the login state, following the redirects
    ends on a page, and that page is the admin dashboard only when logged
    in; /admin/dashboard redirects to /admin/login when not logged in,
    /admin/login redirects to /admin/dashboard when logged in, and a path
    no route knows redirects to /.  The login flag the routes read is set
    only while a [user] record is stored. *)
Theorem admin_dashboard_needs_login :
  (forall (b : bool) (path : string),
      exists p, App.settle 3 b path = Some p
                /\ (p = App.AdminDashboard -> b = true))
  /\ (forall (b : bool) (path : string),
        App.route b path = App.Render App.AdminDashboard -> b = true)
  /\ App.route false "/admin/dashboard" = App.Navigate "/admin/login"
  /\ App.route true "/admin/dashboard" = App.Render App.AdminDashboard
  /\ App.route true "/admin/login" = App.Navigate "/admin/dashboard"
  /\ App.route false "/admin/login" = App.Render App.AdminLogin
  /\ (forall (b : bool) (path : string),
        App.unknown path = true -> App.route b path = App.Navigate "/")
  /\ (forall (User : Type) (stringify : User -> string)
             (storage : gmap string string) (es : list (App.event User)),
        let st := App.after User stringify storage es in
        App.isLoggedIn st = true ->
        is_Some (App.localStorage st !! "user"%string)).
Proof.
  split; [|split; [|repeat split]].
  - intros b path. cbn [App.settle].
    destruct (route_cases b path) as [H|[(p & H & Hp)|[(-> & H)|(-> & H)]]];
      rewrite H.
    + destruct b; eexists; (split; [reflexivity | discriminate]).
    + eauto.
    + eexists; split; [reflexivity | reflexivity].
    + eexists; split; [reflexivity | discriminate].
  - intros b path H.
    destruct (route_cases b path) as [H'|[(p & H' & Hp)|[(_ & H')|(_ & H')]]];
      rewrite H' in H; try discriminate.
    injection H as ->. auto.
  - intros b path. apply route_unknown.
  - intros User stringify storage es. unfold App.after.
    apply logged_in_has_user.
    unfold App.mount, App.initial. cbn [App.localStorage].
    destruct (storage !! "user"%string) as [v|] eqn:Hv; cbn [App.truthy].
    + intros _. cbn [App.localStorage]. destruct (negb _); cbn; rewrite Hv; eauto.
    + discriminate.
Qed.

Lemma admin_dashboard_needs_login_witness :
  App.route true "/nowhere" = App.Navigate "/"
  /\ App.route false "/Admin/Dashboard/" = App.Navigate "/admin/login".
Proof.
  split.
  - apply (proj1 (proj2 (proj2 (proj2 (proj2 (proj2 (proj2
             admin_dashboard_needs_login))))))).
    reflexivity.
  - reflexivity.
Defined.

(** *** The Engine: how a tick moves the loop *)

Section EngineLoop.

Local Open Scope nat_scope.

Variable cfg : Engine.Config.
Variable w : Engine.World.

Ltac tick_cases s :=
  unfold Engine.tick;
  let Hphase := fresh "Hphase" in
  destruct (Engine.phase s)
    as [|[|? ?] ?|[|? ?] ? ?|[|? ?]|] eqn:Hphase;
  repeat match goal with
    | |- context [if ?b then _ else _] => destruct b eqn:?
    | |- context [match Engine.poll ?x ?n with _ => _ end] =>
        destruct (Engine.poll x n) as [?|?] eqn:?
    | |- context [match take ?n ?l with _ => _ end] =>
        destruct (take n l) as [|? ?] eqn:?
    end;
  cbn [Engine.advance Engine.exit_loop Engine.phase Engine.log Engine.registry
       Engine.calls Engine.cancel Engine.lifecycle Engine.loops_spawned
       Engine.last_error Engine.started_at Engine.awaiting_ack].

Lemma count_events_app (f : Engine.Event -> bool) (l1 l2 : list Engine.Event) :
  Engine.count_events f (l1 ++ l2)
  = Engine.count_events f l1 + Engine.count_events f l2.
Proof.
  unfold Engine.count_events. now rewrite List.filter_app, length_app.
Qed.

Lemma ticks_add (n k : nat) (s : Engine.State) :
  Engine.ticks cfg w (n + k) s = Engine.ticks cfg w k (Engine.ticks cfg w n s).
Proof.
  revert s. induction n as [|n IH]; intros s; [reflexivity|]. cbn. apply IH.
Qed.

Lemma ticks_succ_r (n : nat) (s : Engine.State) :
  Engine.ticks cfg w (S n) s = Engine.tick cfg w (Engine.ticks cfg w n s).
Proof.
  replace (S n) with (n + 1) by lia. now rewrite ticks_add.
Qed.







(** The counters never go down in a tick. *)
Lemma tick_counters_le (s : Engine.State) :
  Engine.counters_le (Engine.counters (Engine.registry s))
                     (Engine.counters (Engine.registry (Engine.tick cfg w s))).
Proof.
  unfold Engine.counters_le. tick_cases s; cbn; lia.
Qed.

(** While a batch is in flight every tick brings the loop closer to the
    top of the next iteration. *)
Lemma tick_remaining (s : Engine.State) :
  Engine.in_flight (Engine.phase s) = true ->
  Engine.remaining cfg (Engine.phase (Engine.tick cfg w s))
  < Engine.remaining cfg (Engine.phase s).
Proof.
  tick_cases s; cbn [Engine.in_flight]; try discriminate; intros _;
    unfold Engine.remaining;
    repeat match goal with
           | |- context [match ?l with [] => _ | _ :: _ => _ end] =>
               destruct l
           end;
    rewrite ?length_app; cbn [length];
    repeat match goal with
           | H : (_ <=? _) = true |- _ => apply Nat.leb_le in H
           | H : (_ <=? _) = false |- _ => apply Nat.leb_gt in H
           end;
    try nia.
Qed.

End EngineLoop.

(** *** The Engine under any schedule of loop steps and control calls *)

Section EngineRuns.

Local Open Scope nat_scope.

Variable cfg : Engine.Config.
Variable w : Engine.World.


Lemma run_snoc (schedule : list Engine.Action) (a : Engine.Action) :
  Engine.run cfg w (schedule ++ [a])
  = Engine.apply cfg w (Engine.run cfg w schedule) a.
Proof.
  unfold Engine.run. now rewrite foldl_app.
Qed.

Lemma run_ticks (schedule : list Engine.Action) (n : nat) :
  Engine.run cfg w (schedule ++ repeat Engine.Tick n)
  = Engine.ticks cfg w n (Engine.run cfg w schedule).
Proof.
  unfold Engine.run. rewrite foldl_app.
  generalize (foldl (Engine.apply cfg w) Engine.init schedule).
  induction n as [|n IH]; intros s; [reflexivity|]. cbn. apply IH.
Qed.

(** The lifecycle tells where the loop is: no loop when [STOPPED], a loop
    with the flag down when [RUNNING], with the flag up when [STOPPING]. *)
Lemma apply_consistent (s : Engine.State) (a : Engine.Action) :
  Engine.consistent s -> Engine.consistent (Engine.apply cfg w s a).
Proof.
  unfold Engine.consistent. intros Hs.
  destruct a as [|now [e|]| | | |]; cbn [Engine.apply].
  - revert Hs. unfold Engine.tick.
    destruct (Engine.phase s) as [|[|? ?] ?|[|? ?] ? ?|[|? ?]|] eqn:Hphase;
      repeat match goal with
        | |- context [if ?b then _ else _] => destruct b eqn:?
        | |- context [match Engine.poll ?x ?n with _ => _ end] =>
            destruct (Engine.poll x n) as [?|?] eqn:?
        | |- context [match take ?n ?l with _ => _ end] =>
            destruct (take n l) as [|? ?] eqn:?
        end;
      cbn [Engine.advance Engine.exit_loop Engine.phase Engine.cancel
           Engine.lifecycle];
      destruct (Engine.lifecycle s); intuition congruence.
  - unfold Engine.start. destruct (Engine.lifecycle s) eqn:Hl; cbn; rewrite ?Hl; auto.
  - unfold Engine.start. destruct (Engine.lifecycle s) eqn:Hl; cbn; rewrite ?Hl;
      auto.
  - unfold Engine.stop. destruct (Engine.lifecycle s) eqn:Hl; cbn; rewrite ?Hl;
      intuition.
  - exact Hs.
  - exact Hs.
  - exact Hs.
Qed.

Lemma run_consistent (schedule : list Engine.Action) :
  Engine.consistent (Engine.run cfg w schedule).
Proof.
  induction schedule as [|a schedule IH] using rev_ind.
  - reflexivity.
  - rewrite run_snoc. now apply apply_consistent.
Qed.







(** The batch in flight is finished within [remaining] ticks. *)
Lemma ticks_reach_rest (s : Engine.State) :
  exists n, n <= Engine.remaining cfg (Engine.phase s)
            /\ Engine.in_flight (Engine.phase (Engine.ticks cfg w n s)) = false.
Proof.
  remember (Engine.remaining cfg (Engine.phase s)) as k eqn:Hk.
  assert (Hle : Engine.remaining cfg (Engine.phase s) <= k) by lia.
  clear Hk. revert s Hle. induction k as [|k IH]; intros s Hle.
  - exists 0. split; [lia|]. cbn.
    destruct (Engine.in_flight (Engine.phase s)) eqn:Hf; [|reflexivity].
    pose proof (tick_remaining cfg w s Hf). lia.
  - destruct (Engine.in_flight (Engine.phase s)) eqn:Hf.
    + pose proof (tick_remaining cfg w s Hf) as Hlt.
      destruct (IH (Engine.tick cfg w s)) as (n & Hn & Hr); [lia|].
      exists (S n). split; [lia|exact Hr].
    + exists 0. split; [lia|exact Hf].
Qed.


End EngineRuns.

(** *** One loop iteration, pass by pass *)

Section EngineIteration.

Local Open Scope nat_scope.

Variable cfg : Engine.Config.
Variable w : Engine.World.

Local Abbreviation processed s :=
  (Engine.messages_processed (Engine.counters (Engine.registry s))).
Local Abbreviation dropped s := (Engine.unprocessable (Engine.registry s)).













End EngineIteration.

(** *** The scenario: five messages polled, one refused *)

Section EngineScenario.

Local Open Scope nat_scope.

Variable cfg : Engine.Config.
Variable w : Engine.World.

Local Abbreviation processed s :=
  (Engine.messages_processed (Engine.counters (Engine.registry s))).
Local Abbreviation dropped s := (Engine.unprocessable (Engine.registry s)).








End EngineScenario.



(** *** The control surface and the registry *)

Section EngineControl.

Local Open Scope nat_scope.

Variable cfg : Engine.Config.
Variable w : Engine.World.

Lemma counters_le_refl (c : Engine.Counters) : Engine.counters_le c c.
Proof. unfold Engine.counters_le. lia. Qed.

Lemma counters_le_trans (a b c : Engine.Counters) :
  Engine.counters_le a b -> Engine.counters_le b c -> Engine.counters_le a c.
Proof. unfold Engine.counters_le. lia. Qed.

Lemma apply_counters_le (s : Engine.State) (a : Engine.Action) :
  Engine.on_data_path a = true ->
  Engine.counters_le (Engine.counters (Engine.registry s))
                     (Engine.counters (Engine.registry (Engine.apply cfg w s a))).
Proof.
  destruct a as [|now [e|]| | | |]; cbn [Engine.on_data_path Engine.apply];
    try discriminate; intros _.
  - apply tick_counters_le.
  - unfold Engine.start. destruct (Engine.lifecycle s); apply counters_le_refl.
  - unfold Engine.start. destruct (Engine.lifecycle s); apply counters_le_refl.
  - unfold Engine.stop. destruct (Engine.lifecycle s); apply counters_le_refl.
  - apply counters_le_refl.
  - apply counters_le_refl.
Qed.

(** C4.  No operation on the data path lowers [messages_processed],
    [processing_errors] or [sink_errors]: not a step of the loop, not
    [start()], [stop()], [get_metrics()] or the sampling timer, alone or
    in any sequence, and not the Registry's [increment] and [sample];
    the control-plane [flush] is the one operation that resets them. *)
Theorem counters_reset_only_by_flush :
  (forall (s : Engine.State) (a : Engine.Action),
      Engine.on_data_path a = true ->
      Engine.counters_le (Engine.counters (Engine.registry s))
        (Engine.counters (Engine.registry (Engine.apply cfg w s a))))
  /\ (forall schedule more : list Engine.Action,
        forallb Engine.on_data_path more = true ->
        Engine.counters_le
          (Engine.counters (Engine.registry (Engine.run cfg w schedule)))
          (Engine.counters (Engine.registry (Engine.run cfg w (schedule ++ more)))))
  /\ (forall (c : Engine.Counter) (r : Engine.Registry),
        Engine.counters_le (Engine.counters r)
          (Engine.counters (Engine.increment c r)))
  /\ (forall (capacity now : nat) (r : Engine.Registry),
        Engine.counters (Engine.sample capacity now r) = Engine.counters r)
  /\ (forall s : Engine.State,
        Engine.counters (Engine.registry (Engine.apply cfg w s Engine.Flush))
        = Engine.zero).
Proof.
  split; [exact apply_counters_le|]. split; [|split; [|split]].
  - intros schedule more. unfold Engine.run. rewrite foldl_app.
    generalize (foldl (Engine.apply cfg w) Engine.init schedule).
    induction more as [|a more IH]; intros s Hmore; [apply counters_le_refl|].
    cbn [forallb] in Hmore. apply andb_true_iff in Hmore as [Ha Hmore].
    cbn [foldl]. eapply counters_le_trans; [apply apply_counters_le, Ha|].
    now apply IH.
  - intros [] r; unfold Engine.counters_le; cbn; lia.
  - reflexivity.
  - reflexivity.
Qed.

Lemma apply_loops (s : Engine.State) (a : Engine.Action) :
  Engine.consistent s ->
  Engine.loops_spawned s
  = Engine.count_events Engine.is_loop_exit (Engine.log s)
    + Engine.loops_alive (Engine.phase s) ->
  let s' := Engine.apply cfg w s a in
  Engine.loops_spawned s'
  = Engine.count_events Engine.is_loop_exit (Engine.log s')
    + Engine.loops_alive (Engine.phase s').
Proof.
  intros Hs Hl. cbn zeta. unfold Engine.consistent in Hs.
  destruct a as [|now [e|]| | | |]; cbn [Engine.apply]; try exact Hl.
  - revert Hl. unfold Engine.tick.
    destruct (Engine.phase s) as [|[|? ?] ?|[|? ?] ? ?|[|? ?]|] eqn:Hphase;
      repeat match goal with
        | |- context [if ?b then _ else _] => destruct b
        | |- context [match Engine.poll ?x ?n with _ => _ end] =>
            destruct (Engine.poll x n) as [?|?]
        | |- context [match take ?n ?l with _ => _ end] =>
            destruct (take n l) as [|? ?]
        end;
      cbn [Engine.advance Engine.exit_loop Engine.phase Engine.log
           Engine.loops_spawned Engine.loops_alive];
      rewrite ?Hphase, ?count_events_app; unfold Engine.count_events; cbn; lia.
  - unfold Engine.start. destruct (Engine.lifecycle s); exact Hl.
  - unfold Engine.start. destruct (Engine.lifecycle s); try exact Hl.
    cbn [snd Engine.spawn_loop Engine.with_lifecycle Engine.loops_spawned
         Engine.log Engine.phase Engine.loops_alive].
    rewrite count_events_app, Hl, Hs. cbn. lia.
  - unfold Engine.stop. destruct (Engine.lifecycle s); exact Hl.
Qed.

Lemma run_loops (schedule : list Engine.Action) :
  let s := Engine.run cfg w schedule in
  Engine.loops_spawned s
  = Engine.count_events Engine.is_loop_exit (Engine.log s)
    + Engine.loops_alive (Engine.phase s).
Proof.
  induction schedule as [|a schedule IH] using rev_ind; [reflexivity|].
  cbn zeta. rewrite run_snoc. apply apply_loops; [apply run_consistent|exact IH].
Qed.

(** C6.  [start()] on a [RUNNING] Engine returns the "already running"
    conflict and the very same state: still [RUNNING], no loop spawned,
    nothing else changed.  So a second [start()] right after a successful
    one is refused; and at all times the loops spawned are those that
    have exited plus at most one alive. *)
Theorem start_while_running_is_conflict :
  (forall (now : nat) (outcome : option Engine.Error) (s : Engine.State),
      Engine.lifecycle s = Engine.RUNNING ->
      Engine.start now outcome s = (Engine.AlreadyRunning, s))
  /\ (forall (schedule : list Engine.Action) (now now' : nat)
             (outcome' : option Engine.Error),
        let s := Engine.run cfg w schedule in
        Engine.lifecycle s = Engine.STOPPED ->
        let s1 := snd (Engine.start now None s) in
        fst (Engine.start now None s) = Engine.Started
        /\ Engine.lifecycle s1 = Engine.RUNNING
        /\ Engine.loops_spawned s1 = S (Engine.loops_spawned s)
        /\ Engine.start now' outcome' s1 = (Engine.AlreadyRunning, s1))
  /\ (forall schedule : list Engine.Action,
        let s := Engine.run cfg w schedule in
        Engine.loops_spawned s
        = Engine.count_events Engine.is_loop_exit (Engine.log s)
          + Engine.loops_alive (Engine.phase s)
        /\ Engine.loops_alive (Engine.phase s) <= 1).
Proof.
  split; [|split].
  - intros now outcome s Hs. unfold Engine.start. now rewrite Hs.
  - intros schedule now now' outcome' s Hs. cbn zeta.
    assert (Hst : Engine.start now None s
                  = (Engine.Started,
                     Engine.spawn_loop now (Engine.with_lifecycle Engine.STARTING s))).
    { unfold Engine.start. now rewrite Hs. }
    rewrite Hst. cbn [fst snd]. repeat split.
  - intros schedule. cbn zeta. split; [apply run_loops|].
    destruct (Engine.phase (Engine.run cfg w schedule)); cbn; lia.
Qed.

(** Raising the cancellation flag stops the polling. *)
Lemma tick_cancelled (s : Engine.State) :
  Engine.cancel s = true ->
  Engine.cancel (Engine.tick cfg w s) = true
  /\ Engine.count_events Engine.is_poll (Engine.log (Engine.tick cfg w s))
     = Engine.count_events Engine.is_poll (Engine.log s).
Proof.
  intros Hc. unfold Engine.tick. rewrite Hc.
  destruct (Engine.phase s) as [|[|? ?] ?|[|? ?] ? ?|[|? ?]|];
    repeat match goal with
      | |- context [if ?b then _ else _] => destruct b
      end;
    cbn [Engine.advance Engine.exit_loop Engine.cancel Engine.log];
    rewrite ?count_events_app; unfold Engine.count_events; cbn; split; auto; lia.
Qed.

Lemma ticks_cancelled (n : nat) (s : Engine.State) :
  Engine.cancel s = true ->
  Engine.cancel (Engine.ticks cfg w n s) = true
  /\ Engine.count_events Engine.is_poll (Engine.log (Engine.ticks cfg w n s))
     = Engine.count_events Engine.is_poll (Engine.log s).
Proof.
  revert s. induction n as [|n IH]; intros s Hc; [auto|].
  cbn [Engine.ticks]. destruct (tick_cancelled s Hc) as [H1 H2].
  destruct (IH _ H1) as [H3 H4]. split; [exact H3|]. now rewrite H4.
Qed.

(** After [stop()] on a [RUNNING] Engine the loop finishes the batch in
    flight and exits: [STOPPED] is reached within [remaining + 1] steps
    of the loop, and no further poll is issued. *)
Lemma stop_reaches_stopped (schedule : list Engine.Action) :
  let s := Engine.run cfg w schedule in
  Engine.lifecycle s = Engine.RUNNING ->
  let s1 := snd (Engine.stop s) in
  Engine.lifecycle s1 = Engine.STOPPING
  /\ exists n,
      n <= Engine.remaining cfg (Engine.phase s) + 1
      /\ Engine.lifecycle (Engine.ticks cfg w n s1) = Engine.STOPPED
      /\ Engine.count_events Engine.is_poll (Engine.log (Engine.ticks cfg w n s1))
         = Engine.count_events Engine.is_poll (Engine.log s).
Proof.
  cbn zeta. intros Hrun.
  pose proof (run_consistent cfg w (schedule ++ [Engine.Stop])) as Hcons.
  rewrite run_snoc in Hcons. cbn [Engine.apply] in Hcons.
  set (s := Engine.run cfg w schedule) in *.
  set (s1 := snd (Engine.stop s)) in *.
  assert (Hs1 : Engine.lifecycle s1 = Engine.STOPPING /\ Engine.cancel s1 = true
                /\ Engine.phase s1 = Engine.phase s /\ Engine.log s1 = Engine.log s).
  { subst s1. unfold Engine.stop. rewrite Hrun. cbn. auto. }
  destruct Hs1 as (Hl1 & Hc1 & Hph1 & Hlog1).
  split; [exact Hl1|].
  destruct (ticks_reach_rest cfg w s1) as (n & Hn & Hrest).
  rewrite Hph1 in Hn.
  destruct (ticks_cancelled n s1 Hc1) as [Hcn Hpn].
  assert (Hconsn : Engine.consistent (Engine.ticks cfg w n s1)).
  { subst s1 s. change (snd (Engine.stop (Engine.run cfg w schedule)))
      with (Engine.apply cfg w (Engine.run cfg w schedule) Engine.Stop).
    rewrite <- run_snoc, <- run_ticks. apply run_consistent. }
  destruct (Engine.phase (Engine.ticks cfg w n s1)) eqn:Hphn;
    cbn in Hrest; try discriminate Hrest.
  - exists (S n). split; [lia|]. rewrite ticks_succ_r.
    destruct (tick_cancelled _ Hcn) as [_ Hp']. rewrite Hp', Hpn, Hlog1.
    split; [|reflexivity]. unfold Engine.tick. rewrite Hphn, Hcn. reflexivity.
  - exists n. split; [lia|]. rewrite Hpn, Hlog1. split; [|reflexivity].
    unfold Engine.consistent in Hconsn. rewrite Hphn in Hconsn.
    destruct (Engine.lifecycle (Engine.ticks cfg w n s1));
      [reflexivity | contradiction | tauto | tauto].
Qed.

End EngineControl.

Lemma counters_reset_only_by_flush_witness :
  Engine.counters_le
    (Engine.counters (Engine.registry Engine.started))
    (Engine.counters (Engine.registry
       (Engine.apply Engine.demo_cfg (Engine.demo_world 1 Engine.healthy_sink)
          Engine.started Engine.Tick))).
Proof.
  apply (proj1 (counters_reset_only_by_flush Engine.demo_cfg
                  (Engine.demo_world 1 Engine.healthy_sink))
           Engine.started Engine.Tick).
  reflexivity.
Defined.

Lemma start_while_running_is_conflict_witness :
  Engine.start 7 None Engine.started = (Engine.AlreadyRunning, Engine.started).
Proof.
  apply (proj1 (start_while_running_is_conflict Engine.demo_cfg
                  (Engine.demo_world 1 Engine.healthy_sink))
           7%nat None Engine.started).
  reflexivity.
Defined.

(** *** The rolling history of the Registry *)

Lemma push_bounded_length {A : Type} (capacity : nat) (x : A) (l : list A) :
  (length l <= capacity)%nat ->
  (length (Engine.push_bounded capacity x l) <= capacity)%nat.
Proof.
  intros Hl. unfold Engine.push_bounded.
  rewrite length_drop, length_app. cbn [length]. lia.
Qed.

Lemma push_bounded_full {A : Type} (capacity : nat) (x : A) (l : list A) :
  (0 < capacity)%nat -> length l = capacity ->
  Engine.push_bounded capacity x l = tail l ++ [x].
Proof.
  intros Hc Hl. unfold Engine.push_bounded.
  replace (length l + 1 - capacity)%nat with 1%nat by lia.
  destruct l as [|y l]; [cbn in Hl; lia|reflexivity].
Qed.

(** The history of a reachable Engine never outgrows its capacity. *)
Lemma history_bounded (cfg : Engine.Config) (w : Engine.World)
    (schedule : list Engine.Action) :
  (length (Engine.recent_history (Engine.registry (Engine.run cfg w schedule)))
   <= Engine.history_capacity cfg)%nat.
Proof.
  induction schedule as [|a schedule IH] using rev_ind; [cbn; lia|].
  rewrite run_snoc. revert IH. generalize (Engine.run cfg w schedule). intros s IH.
  destruct a as [|now [e|]| | | |]; cbn [Engine.apply].
  - unfold Engine.tick.
    destruct (Engine.phase s) as [|[|? ?] ?|[|? ?] ? ?|[|? ?]|];
      repeat match goal with
        | |- context [if ?b then _ else _] => destruct b
        | |- context [match Engine.poll ?x ?n with _ => _ end] =>
            destruct (Engine.poll x n) as [?|?]
        | |- context [match take ?n ?l with _ => _ end] =>
            destruct (take n l) as [|? ?]
        end; exact IH.
  - unfold Engine.start. destruct (Engine.lifecycle s); exact IH.
  - unfold Engine.start. destruct (Engine.lifecycle s); exact IH.
  - unfold Engine.stop. destruct (Engine.lifecycle s); exact IH.
  - exact IH.
  - cbn. now apply push_bounded_length.
  - exact IH.
Qed.

(* ===================================================================== *)
(** ** Further properties of the front end                                 *)
(* ===================================================================== *)

(** *** Typing into the create-topic form *)

Lemma to_uint_not_nil (n : nat) : Nat.to_uint n <> Decimal.Nil.
Proof.
  intros H. pose proof (DecimalNat.Unsigned.of_to n) as Hn.
  rewrite H in Hn. cbn in Hn. subst n. discriminate H.
Qed.

Lemma append_cons (c : ascii) (s r : string) :
  (String c s ++ r)%string = String c (s ++ r)%string.
Proof. reflexivity. Qed.

Lemma append_empty_l (r : string) : (EmptyString ++ r)%string = r.
Proof. reflexivity. Qed.

(** Reading the digits of [u], whatever follows them. *)
Lemma parse_digits_uint (u : Decimal.uint) (rest : string) :
  JsMore.no_leading_digit rest = true ->
  forall acc : nat,
    Js.parse_digits (DecimalString.NilEmpty.string_of_uint u ++ rest)
                    (Some (Z.of_nat acc))
    = Some (Z.of_nat (Nat.of_uint_acc u acc)).
Proof.
  intros Hrest.
  induction u as [|u IH|u IH|u IH|u IH|u IH|u IH|u IH|u IH|u IH|u IH];
    intros acc;
    cbn [DecimalString.NilEmpty.string_of_uint String.append Nat.of_uint_acc].
  2-11: rewrite append_cons; cbn [Js.parse_digits];
    match goal with
    | |- context [Js.digit_value ?c] =>
        let v := eval vm_compute in (Js.digit_value c) in
        change (Js.digit_value c) with v
    end;
    cbn [default from_option]; unfold id;
    rewrite Nat.tail_mul_spec, <- IH; do 2 f_equal; lia.
  rewrite append_empty_l. destruct rest as [|c rest]; [reflexivity|].
  cbn in Hrest.
  cbn [Js.parse_digits].
  destruct (Js.digit_value c); [discriminate Hrest|reflexivity].
Qed.

(** The digits of [n] read back as [n], from the first digit on. *)
Lemma parse_digits_decimal (n : nat) (rest : string) :
  JsMore.no_leading_digit rest = true ->
  Js.parse_digits (JsMore.decimal n ++ rest) None = Some (Z.of_nat n).
Proof.
  intros Hrest. unfold JsMore.decimal.
  pose proof (parse_digits_uint (Nat.to_uint n) rest Hrest 0%nat) as H.
  fold (Nat.of_uint (Nat.to_uint n)) in H.
  rewrite DecimalNat.Unsigned.of_to in H. rewrite <- H.
  pose proof (to_uint_not_nil n) as Hnil.
  destruct (Nat.to_uint n); [contradiction|..]; reflexivity.
Qed.

(** The first character of a decimal is a digit. *)
Lemma decimal_starts_with_digit (n : nat) (rest : string) :
  exists c s, (JsMore.decimal n ++ rest)%string = String c s
              /\ Js.is_white_space c = false
              /\ c <> "-"%char /\ c <> "+"%char.
Proof.
  unfold JsMore.decimal. pose proof (to_uint_not_nil n) as Hnil.
  destruct (Nat.to_uint n); [contradiction|..];
    cbn [DecimalString.NilEmpty.string_of_uint]; rewrite append_cons;
    eexists; eexists; (split; [reflexivity|]);
    (split; [reflexivity|split; discriminate]).
Qed.

Lemma parseInt10_decimal (n : nat) (rest : string) :
  JsMore.no_leading_digit rest = true ->
  Js.parseInt10 (JsMore.decimal n ++ rest) = Js.Num (Z.of_nat n).
Proof.
  intros Hrest. pose proof (parse_digits_decimal n rest Hrest) as Hp.
  destruct (decimal_starts_with_digit n rest) as (c & s & Hs & Hw & Hm & Hpl).
  rewrite Hs in *. unfold Js.parseInt10. cbn [Js.trim_start]. rewrite Hw.
  destruct c as [[] [] [] [] [] [] [] []]; try congruence;
    rewrite Hp; f_equal; lia.
Qed.

Lemma parseInt10_negative (n : nat) (rest : string) :
  JsMore.no_leading_digit rest = true ->
  Js.parseInt10 (String "-" (JsMore.decimal n ++ rest)) = Js.Num (- Z.of_nat n).
Proof.
  intros Hrest. unfold Js.parseInt10.
  change (Js.trim_start (String "-" (JsMore.decimal n ++ rest)))
    with (String "-" (JsMore.decimal n ++ rest)).
  cbv iota beta. rewrite (parse_digits_decimal n rest Hrest). f_equal; lia.
Qed.



Lemma append_empty_r (s : string) : (s ++ EmptyString)%string = s.
Proof.
  induction s as [|c s IH]; [reflexivity|]. rewrite append_cons. now rewrite IH.
Qed.

Lemma validateForm_name_ok (st : Topics.State) :
  TopicsPage.accepted_name (Topics.name (Topics.newTopic st)) ->
  Topics.validateForm st
  = if Js.lt (Topics.partitions (Topics.newTopic st)) (Js.Num 1) then
      (false, Topics.setFormError "Number of partitions must be at least 1" st)
    else if Js.lt (Topics.replication (Topics.newTopic st)) (Js.Num 1) then
      (false, Topics.setFormError "Replication factor must be at least 1" st)
    else (true, st).
Proof.
  intros [Hne Hchars]. unfold Topics.validateForm.
  destruct (Topics.name (Topics.newTopic st)) as [|c s] eqn:Hn; [congruence|].
  cbn [String.eqb]. unfold Js.test_class_plus.
  rewrite all_in_class_forallb, Hchars. reflexivity.
Qed.

(** X2.  A count typed with a minus sign, and the count 0, never get
    through: with an acceptable name in the form, [validateForm] fails
    with the partitions message and nothing is submitted. *)
Theorem negative_or_zero_partitions_rejected (n : nat) (st : Topics.State) :
  TopicsPage.accepted_name (Topics.name (Topics.newTopic st)) ->
  let typed := Topics.handleInputChange Topics.FPartitions
                 (String "-" (JsMore.decimal n)) st in
  let zero := Topics.handleInputChange Topics.FPartitions (JsMore.decimal 0) st in
  Topics.validateForm typed
  = (false, Topics.setFormError "Number of partitions must be at least 1" typed)
  /\ fst (Topics.handleCreateTopic typed) = None
  /\ Topics.validateForm zero
     = (false, Topics.setFormError "Number of partitions must be at least 1" zero)
  /\ fst (Topics.handleCreateTopic zero) = None.
Proof.
  intros Hname. cbn zeta.
  assert (H1 : forall v z, z < 1 -> Js.parseInt10 v = Js.Num z ->
             let s' := Topics.handleInputChange Topics.FPartitions v st in
             Topics.validateForm s'
             = (false, Topics.setFormError "Number of partitions must be at least 1" s')).
  { intros v z Hz Hv. cbn zeta. rewrite validateForm_name_ok by exact Hname.
    unfold Topics.handleInputChange at 1. cbn [Topics.newTopic Topics.partitions].
    rewrite Hv. cbn [Js.lt]. now apply Z.ltb_lt in Hz as ->. }
  rewrite <- (append_empty_r (JsMore.decimal n)).
  rewrite <- (append_empty_r (JsMore.decimal 0)).
  pose proof (H1 (String "-" (JsMore.decimal n ++ EmptyString)) (- Z.of_nat n)
                 ltac:(lia) (parseInt10_negative n EmptyString eq_refl)) as Hneg.
  pose proof (H1 (JsMore.decimal 0 ++ EmptyString)%string 0 ltac:(lia)
                 (parseInt10_decimal 0 EmptyString eq_refl)) as Hzero.
  cbn zeta in Hneg, Hzero.
  unfold Topics.handleCreateTopic. rewrite Hneg, Hzero. repeat split.
Qed.

Lemma negative_or_zero_partitions_rejected_witness :
  fst (Topics.handleCreateTopic
         (Topics.handleInputChange Topics.FPartitions (String "-" (JsMore.decimal 4))
            (Topics.form "orders" 3 3)))
  = None.
Proof.
  apply (negative_or_zero_partitions_rejected 4 (Topics.form "orders" 3 3)).
  split; [discriminate|reflexivity].
Defined.

(** X3.  Edits of the form are independent: an edit changes its own
    field only, edits of different fields can be made in either order,
    and a later edit of a field overrides an earlier one. *)
Theorem field_edits_are_independent (f g : Topics.field) (v u : string)
    (st : Topics.State) :
  (f <> g ->
   Topics.handleInputChange f v (Topics.handleInputChange g u st)
   = Topics.handleInputChange g u (Topics.handleInputChange f v st))
  /\ Topics.handleInputChange f v (Topics.handleInputChange f u st)
     = Topics.handleInputChange f v st
  /\ (f <> Topics.FName ->
      Topics.name (Topics.newTopic (Topics.handleInputChange f v st))
      = Topics.name (Topics.newTopic st))
  /\ (f <> Topics.FPartitions ->
      Topics.partitions (Topics.newTopic (Topics.handleInputChange f v st))
      = Topics.partitions (Topics.newTopic st))
  /\ (f <> Topics.FReplication ->
      Topics.replication (Topics.newTopic (Topics.handleInputChange f v st))
      = Topics.replication (Topics.newTopic st))
  /\ Topics.name (Topics.newTopic (Topics.handleInputChange Topics.FName v st)) = v.
Proof.
  repeat split; destruct f; try destruct g; try congruence; reflexivity.
Qed.

Lemma field_edits_are_independent_witness :
  Topics.handleInputChange Topics.FName "orders"
    (Topics.handleInputChange Topics.FPartitions "7" (Topics.form "x" 3 3))
  = Topics.handleInputChange Topics.FPartitions "7"
      (Topics.handleInputChange Topics.FName "orders" (Topics.form "x" 3 3)).
Proof.
  apply (proj1 (field_edits_are_independent Topics.FName Topics.FPartitions
                  "orders" "7" (Topics.form "x" 3 3))).
  discriminate.
Defined.

Lemma validateForm_passes (st : Topics.State) :
  fst (Topics.validateForm st) = true ->
  Topics.validateForm st = (true, st)
  /\ TopicsPage.accepted_name (Topics.name (Topics.newTopic st))
  /\ Js.lt (Topics.partitions (Topics.newTopic st)) (Js.Num 1) = false
  /\ Js.lt (Topics.replication (Topics.newTopic st)) (Js.Num 1) = false.
Proof.
  unfold Topics.validateForm, TopicsPage.accepted_name.
  destruct (Topics.name (Topics.newTopic st)) as [|c s] eqn:Hn;
    [cbn; discriminate|].
  cbn [String.eqb]. unfold Js.test_class_plus. rewrite all_in_class_forallb.
  destruct (forallb Topics.grammar_char (list_ascii_of_string (String c s)));
    cbn [negb]; [|cbn; discriminate].
  destruct (Js.lt (Topics.partitions (Topics.newTopic st)) (Js.Num 1));
    [cbn; discriminate|].
  destruct (Js.lt (Topics.replication (Topics.newTopic st)) (Js.Num 1));
    [cbn; discriminate|].
  intros _. repeat split. discriminate.
Qed.

Lemma validateForm_fails (st : Topics.State) :
  fst (Topics.validateForm st) = false ->
  exists msg, Topics.validateForm st = (false, Topics.setFormError msg st)
              /\ msg <> EmptyString.
Proof.
  unfold Topics.validateForm.
  repeat match goal with
         | |- context [if ?b then _ else _] => destruct b
         end; cbn [fst]; try discriminate; intros _;
    eexists; (split; [reflexivity|discriminate]).
Qed.

(** X4.  Whatever the create-topic dialog sends to the API is the
    form's topic as it stands, with a non-empty name over letters,
    digits, [.], [_] and [-], and with partitions and replication that
    are not numbers below 1. *)
Theorem submitted_topic_is_checked (create : Topics.NewTopic -> TopicsPage.CreateAnswer)
    (refetch : TopicsPage.TopicsAnswer) (st : TopicsPage.State) (t : Topics.NewTopic) :
  fst (TopicsPage.handleCreateTopic create refetch st) = Some t ->
  t = Topics.newTopic (TopicsPage.form st)
  /\ TopicsPage.accepted_name (Topics.name t)
  /\ Js.lt (Topics.partitions t) (Js.Num 1) = false
  /\ Js.lt (Topics.replication t) (Js.Num 1) = false.
Proof.
  unfold TopicsPage.handleCreateTopic.
  destruct (Topics.validateForm (TopicsPage.form st)) as [ok f] eqn:Hv.
  destruct ok; [|discriminate].
  destruct (validateForm_passes (TopicsPage.form st)) as (Hst & Hname & Hp & Hr);
    [now rewrite Hv|].
  rewrite Hv in Hst. injection Hst as ->.
  destruct (create _); cbn [fst]; intros [= <-]; auto.
Qed.

Lemma submitted_topic_is_checked_witness :
  Topics.mkNewTopic "orders" (Js.Num 3) (Js.Num 3)
  = Topics.newTopic (TopicsPage.form (TopicsPage.page_with (Topics.form "orders" 3 3))).
Proof.
  apply (submitted_topic_is_checked (fun _ => TopicsPage.Created)
           (TopicsPage.Listed None) (TopicsPage.page_with (Topics.form "orders" 3 3))).
  reflexivity.
Defined.

(** X5.  How the create-topic dialog ends.  An invalid form sends
    nothing, shows a non-empty form error and leaves the dialog, the
    topic being edited and the page as they were.  A created topic closes
    the dialog and replaces the list by the fetched one (empty when the
    payload has no [topics]; the old list with a page error when the
    fetch fails).  A refused creation keeps the dialog and the list and
    shows a non-empty form error, the server's if it sent one. *)
Theorem create_dialog_outcomes (create : Topics.NewTopic -> TopicsPage.CreateAnswer)
    (refetch : TopicsPage.TopicsAnswer) (st : TopicsPage.State) :
  let r := TopicsPage.handleCreateTopic create refetch st in
  let f := TopicsPage.form st in
  let f' := TopicsPage.form (snd r) in
  Topics.newTopic f' = Topics.newTopic f
  /\ (fst (Topics.validateForm f) = false ->
      fst r = None
      /\ Topics.formError f' <> EmptyString
      /\ Topics.openDialog f' = Topics.openDialog f
      /\ TopicsPage.topics (snd r) = TopicsPage.topics st
      /\ TopicsPage.error (snd r) = TopicsPage.error st)
  /\ (fst (Topics.validateForm f) = true ->
      create (Topics.newTopic f) = TopicsPage.Created ->
      Topics.openDialog f' = false
      /\ Topics.formError f' = Topics.formError f
      /\ TopicsPage.loading (snd r) = false
      /\ match refetch with
         | TopicsPage.Listed ts =>
             TopicsPage.topics (snd r) = default [] ts
             /\ TopicsPage.error (snd r) = None
         | TopicsPage.ListFailed =>
             TopicsPage.topics (snd r) = TopicsPage.topics st
             /\ TopicsPage.error (snd r) <> None
         end)
  /\ (forall e, fst (Topics.validateForm f) = true ->
      create (Topics.newTopic f) = TopicsPage.CreateFailed e ->
      Topics.openDialog f' = Topics.openDialog f
      /\ Topics.formError f' <> EmptyString
      /\ (forall msg, e = Some msg -> msg <> EmptyString -> Topics.formError f' = msg)
      /\ TopicsPage.topics (snd r) = TopicsPage.topics st).
Proof.
  cbn zeta. unfold TopicsPage.handleCreateTopic.
  destruct (Topics.validateForm (TopicsPage.form st)) as [ok f] eqn:Hv.
  destruct ok.
  - destruct (validateForm_passes (TopicsPage.form st)) as (Hst & _);
      [now rewrite Hv|].
    rewrite Hv in Hst. injection Hst as ->.
    split; [|split; [discriminate|split]].
    + destruct (create _); [destruct refetch|]; reflexivity.
    + intros _ ->. destruct refetch; cbn; repeat split; discriminate.
    + intros e _ ->. cbn. repeat split.
      * destruct e as [msg|]; cbn; [|discriminate].
        destruct (String.eqb msg EmptyString) eqn:Hm; [discriminate|].
        now apply String.eqb_neq in Hm.
      * intros msg -> Hmsg. cbn. apply String.eqb_neq in Hmsg. now rewrite Hmsg.
  - destruct (validateForm_fails (TopicsPage.form st)) as (msg & Hmsg & Hne);
      [now rewrite Hv|].
    rewrite Hv in Hmsg. injection Hmsg as ->.
    split; [reflexivity|split; [|split; [discriminate|intros e; discriminate]]].
    intros _. cbn. repeat split. exact Hne.
Qed.

Lemma create_dialog_outcomes_witness :
  Topics.openDialog
    (TopicsPage.form
       (snd (TopicsPage.handleCreateTopic (fun _ => TopicsPage.Created)
               (TopicsPage.Listed None) (TopicsPage.page_with (Topics.form "orders" 3 3)))))
  = false.
Proof.
  apply (proj1 (proj2 (proj2 (create_dialog_outcomes (fun _ => TopicsPage.Created)
           (TopicsPage.Listed None) (TopicsPage.page_with (Topics.form "orders" 3 3))))));
    reflexivity.
Defined.



(** *** Signing in *)

Lemma or_default_not_empty (v : option string) (fallback : string) :
  fallback <> EmptyString -> JsMore.or_default v fallback <> EmptyString.
Proof.
  intros Hf. destruct v as [s|]; cbn; [|exact Hf].
  destruct (String.eqb s EmptyString) eqn:Hs; [exact Hf|].
  now apply String.eqb_neq in Hs.
Qed.

(** X7.  The login form sends nothing while the username or the password
    is empty: no API call, no [onLogin], the "required" message, and the
    typed credentials and the loading flag as they were. *)
Theorem login_requires_both_fields (V : Type)
    (login : AdminLogin.Credentials -> AdminLogin.LoginAnswer V)
    (st : AdminLogin.State) :
  AdminLogin.username (AdminLogin.credentials st) = EmptyString
  \/ AdminLogin.password (AdminLogin.credentials st) = EmptyString ->
  let r := AdminLogin.handleSubmit V login st in
  AdminLogin.sent V r = None
  /\ AdminLogin.logged_in V r = None
  /\ AdminLogin.error (AdminLogin.final V r) = "Username and password are required"%string
  /\ AdminLogin.credentials (AdminLogin.final V r) = AdminLogin.credentials st
  /\ AdminLogin.loading (AdminLogin.final V r) = AdminLogin.loading st.
Proof.
  intros H. cbn zeta. unfold AdminLogin.handleSubmit.
  assert (Hb : (String.eqb (AdminLogin.username (AdminLogin.credentials st)) EmptyString
                || String.eqb (AdminLogin.password (AdminLogin.credentials st)) EmptyString)%bool
               = true).
  { apply orb_true_iff. destruct H as [H|H]; rewrite H; auto. }
  rewrite Hb. repeat split.
Qed.

Lemma login_requires_both_fields_witness :
  AdminLogin.sent unit
    (AdminLogin.handleSubmit unit (fun _ => AdminLogin.LoggedIn unit tt tt)
       (AdminLogin.filled "admin" EmptyString))
  = None.
Proof.
  apply (login_requires_both_fields unit (fun _ => AdminLogin.LoggedIn unit tt tt)
           (AdminLogin.filled "admin" EmptyString)).
  right. reflexivity.
Defined.

(** X8.  What a submission of the login form results in.  [onLogin] is
    called only when the API accepted the credentials that were typed,
    and then with the typed username and the role and token of the
    answer, the error cleared.  Whenever [onLogin] is not called a
    non-empty error is shown; whenever the API was called the loading
    flag is down afterwards and the credentials sent are the typed
    ones. *)
Theorem login_submission (V : Type)
    (login : AdminLogin.Credentials -> AdminLogin.LoginAnswer V)
    (st : AdminLogin.State) :
  let c := AdminLogin.credentials st in
  let r := AdminLogin.handleSubmit V login st in
  (forall u, AdminLogin.logged_in V r = Some u ->
     AdminLogin.sent V r = Some c
     /\ AdminLogin.username c <> EmptyString
     /\ AdminLogin.password c <> EmptyString
     /\ login c = AdminLogin.LoggedIn V (AdminLogin.role V u) (AdminLogin.token V u)
     /\ AdminLogin.user_name V u = AdminLogin.username c
     /\ AdminLogin.error (AdminLogin.final V r) = EmptyString)
  /\ (AdminLogin.logged_in V r = None ->
      AdminLogin.error (AdminLogin.final V r) <> EmptyString)
  /\ (forall c', AdminLogin.sent V r = Some c' ->
        c' = c /\ AdminLogin.loading (AdminLogin.final V r) = false)
  /\ AdminLogin.credentials (AdminLogin.final V r) = c.
Proof.
  cbn zeta. unfold AdminLogin.handleSubmit.
  destruct (String.eqb (AdminLogin.username (AdminLogin.credentials st)) EmptyString)
    eqn:Hu; cbn [orb].
  - repeat split; try discriminate.
  - destruct (String.eqb (AdminLogin.password (AdminLogin.credentials st)) EmptyString)
      eqn:Hp.
    + repeat split; try discriminate.
    + apply String.eqb_neq in Hu, Hp.
      destruct (login (AdminLogin.credentials st)) as [ro t|e] eqn:Hl; cbn.
      * split; [|split; [discriminate|split; [|reflexivity]]].
        -- intros u [= <-]. cbn. repeat split; assumption.
        -- intros c' [= <-]. auto.
      * split; [discriminate|split; [|split; [|reflexivity]]].
        -- intros _. apply or_default_not_empty. discriminate.
        -- intros c' [= <-]. auto.
Qed.

Lemma login_submission_witness :
  AdminLogin.error
    (AdminLogin.final unit
       (AdminLogin.handleSubmit unit (fun _ => AdminLogin.LoginFailed unit None)
          (AdminLogin.filled "admin" "wrong")))
  <> EmptyString.
Proof.
  apply (proj1 (proj2 (login_submission unit
           (fun _ => AdminLogin.LoginFailed unit None)
           (AdminLogin.filled "admin" "wrong")))).
  reflexivity.
Defined.



(** X10.  Login, logout and reload.  Logging out after logging in leaves
    the storage as if the user had only been removed, and logged out;
    other items are never touched.  A reload after a logout starts logged
    out.  A reload after a login starts logged in, provided the stored
    text of the user is not empty. *)
Theorem login_logout_reload (User : Type) (stringify : User -> string)
    (u : User) (st : App.State) :
  let inn := App.handleLogin User stringify u st in
  let out := App.handleLogout (App.handleLogin User stringify u st) in
  (App.isLoggedIn out = false
   /\ App.localStorage out = delete "user"%string (App.localStorage st)
   /\ App.sidebarOpen out = App.sidebarOpen st)
  /\ (forall k : string, k <> "user"%string ->
        App.localStorage inn !! k = App.localStorage st !! k
        /\ App.localStorage (App.handleLogout st) !! k = App.localStorage st !! k)
  /\ App.isLoggedIn (App.mount (App.initial (App.localStorage (App.handleLogout st))))
     = false
  /\ (stringify u <> EmptyString ->
      App.isLoggedIn (App.mount (App.initial (App.localStorage inn))) = true).
Proof.
  cbn zeta. split; [|split; [|split]].
  - cbn. repeat split. apply delete_insert_eq.
  - intros k Hk. cbn. rewrite lookup_insert_ne, lookup_delete_ne by congruence.
    split; reflexivity.
  - unfold App.mount. cbn. rewrite lookup_delete_eq. reflexivity.
  - intros Hs. unfold App.mount. cbn. rewrite lookup_insert_eq. cbn.
    apply String.eqb_neq in Hs. rewrite Hs. reflexivity.
Qed.

Lemma login_logout_reload_witness :
  App.isLoggedIn
    (App.mount (App.initial
       (App.localStorage (App.handleLogin string (fun s => s) "admin" (App.initial ∅)))))
  = true.
Proof.
  apply (proj2 (proj2 (proj2 (login_logout_reload string (fun s => s) "admin"%string
                                (App.initial ∅))))).
  discriminate.
Defined.

(** *** The request interceptor *)

(** X11.  Without a stored user the request interceptor passes the
    request on unchanged; in particular so after the response interceptor
    has handled a 401.  With a stored item that [JSON.parse] rejects it
    throws, for every request. *)
Theorem request_without_user (parse : string -> option JsMore.Json)
    (to_string : JsMore.Json -> string) (config : RequestInterceptor.Config) :
  (forall storage : gmap string string,
      storage !! "user"%string = None ->
      RequestInterceptor.onRequest parse to_string storage config = Some config)
  /\ (forall (e : ApiService.AxiosError) (r : ApiService.Response)
             (b : ApiService.Browser),
        ApiService.response e = Some r -> ApiService.status r = 401 ->
        RequestInterceptor.onRequest parse to_string
          (ApiService.localStorage (snd (ApiService.onRejected e b))) config
        = Some config)
  /\ (forall (storage : gmap string string) (stored : string),
        storage !! "user"%string = Some stored -> parse stored = None ->
        RequestInterceptor.onRequest parse to_string storage config = None).
Proof.
  split; [|split].
  - intros storage H. unfold RequestInterceptor.onRequest. now rewrite H.
  - intros e r b He Hs. unfold ApiService.onRejected. rewrite He, Hs.
    cbn [Z.eqb Pos.eqb snd ApiService.localStorage].
    unfold RequestInterceptor.onRequest. now rewrite lookup_delete_eq.
  - intros storage stored H Hp. unfold RequestInterceptor.onRequest.
    now rewrite H, Hp.
Qed.

Lemma request_without_user_witness :
  RequestInterceptor.onRequest (fun _ => None) (fun _ => EmptyString)
    (ApiService.localStorage
       (snd (ApiService.onRejected
               (ApiService.mkAxiosError (Some (ApiService.mkResponse 401 EmptyString)))
               ApiService.stored_session)))
    RequestInterceptor.plain_request
  = Some RequestInterceptor.plain_request.
Proof.
  apply (proj1 (proj2 (request_without_user (fun _ => None) (fun _ => EmptyString)
                         RequestInterceptor.plain_request))
           _ (ApiService.mkResponse 401 EmptyString)); reflexivity.
Defined.

(** X12.  With a stored user that parses to an object whose [token] is a
    non-empty string, the request goes out with [Authorization] set to
    [Bearer] and that token; the URL and every other header are as they
    were.  With no [token], or a falsy one, nothing is added. *)
Theorem request_carries_token (parse : string -> option JsMore.Json)
    (to_string : JsMore.Json -> string) (storage : gmap string string)
    (config : RequestInterceptor.Config) (stored : string)
    (fields : list (string * JsMore.Json)) :
  storage !! "user"%string = Some stored ->
  parse stored = Some (JsMore.JObj fields) ->
  (forall t, JsMore.assoc "token" fields = Some (JsMore.JStr t) -> t <> EmptyString ->
     exists sent,
       RequestInterceptor.onRequest parse to_string storage config = Some sent
       /\ RequestInterceptor.headers sent !! "Authorization"%string
          = Some ("Bearer " ++ t)%string
       /\ (forall h : string, h <> "Authorization"%string ->
             RequestInterceptor.headers sent !! h
             = RequestInterceptor.headers config !! h)
       /\ RequestInterceptor.url sent = RequestInterceptor.url config)
  /\ ((JsMore.assoc "token" fields = None
       \/ exists t, JsMore.assoc "token" fields = Some t /\ JsMore.truthy t = false) ->
      RequestInterceptor.onRequest parse to_string storage config = Some config).
Proof.
  intros Hs Hp. unfold RequestInterceptor.onRequest. rewrite Hs, Hp.
  cbn [JsMore.truthy JsMore.get]. split.
  - intros t Ht Hne. rewrite Ht. cbn [JsMore.truthy].
    apply String.eqb_neq in Hne. rewrite Hne. cbn [negb].
    eexists. split; [reflexivity|].
    cbn [RequestInterceptor.headers RequestInterceptor.url
         RequestInterceptor.interpolate].
    split; [apply lookup_insert_eq|]. split; [|reflexivity].
    intros h Hh. apply lookup_insert_ne. congruence.
  - intros [H|(t & Ht & Hf)]; [now rewrite H|]. now rewrite Ht, Hf.
Qed.

Lemma request_carries_token_witness :
  exists sent,
    RequestInterceptor.onRequest
      (fun _ => Some (JsMore.JObj [("username"%string, JsMore.JStr "admin");
                                   ("token"%string, JsMore.JStr "abc123")]))
      (fun _ => EmptyString) (RequestInterceptor.storing "{}")
      RequestInterceptor.plain_request = Some sent
    /\ RequestInterceptor.headers sent !! "Authorization"%string
       = Some ("Bearer " ++ "abc123")%string
    /\ (forall h : string, h <> "Authorization"%string ->
          RequestInterceptor.headers sent !! h
          = RequestInterceptor.headers RequestInterceptor.plain_request !! h)
    /\ RequestInterceptor.url sent
       = RequestInterceptor.url RequestInterceptor.plain_request.
Proof.
  apply (proj1 (request_carries_token
           (fun _ => Some (JsMore.JObj [("username"%string, JsMore.JStr "admin");
                                        ("token"%string, JsMore.JStr "abc123")]))
           (fun _ => EmptyString) (RequestInterceptor.storing "{}")
           RequestInterceptor.plain_request "{}"
           [("username"%string, JsMore.JStr "admin");
            ("token"%string, JsMore.JStr "abc123")]
           eq_refl eq_refl)).
  - reflexivity.
  - discriminate.
Defined.

(** *** The Sidebar *)

Lemma sidebar_isLoggedIn_iff (storage : gmap string string) :
  Sidebar.isLoggedIn storage = true <-> is_Some (storage !! "user"%string).
Proof.
  unfold Sidebar.isLoggedIn. destruct (storage !! "user"%string).
  - split; eauto.
  - split; [discriminate|]. intros [x Hx]. discriminate Hx.
Qed.

(** X13.  The Sidebar shows the Admin Dashboard link exactly when a
    [user] item is stored: after [handleLogin], not after [handleLogout]
    or after the interceptor handled a 401.  Whenever the App's mount
    effect logs in, the link is shown; the two disagree when the stored
    text is empty, which the Sidebar takes as logged in and the App does
    not. *)
Theorem sidebar_admin_link (storage : gmap string string) :
  (In (Sidebar.mkItem "Admin Dashboard" "/admin/dashboard") (Sidebar.shown storage)
   <-> is_Some (storage !! "user"%string))
  /\ (App.isLoggedIn (App.mount (App.initial storage)) = true ->
      Sidebar.isLoggedIn storage = true)
  /\ (storage !! "user"%string = Some EmptyString ->
      Sidebar.isLoggedIn storage = true
      /\ App.isLoggedIn (App.mount (App.initial storage)) = false)
  /\ (forall b : ApiService.Browser,
        Sidebar.isLoggedIn (ApiService.localStorage (ApiService.signed_out b)) = false)
  /\ (forall (User : Type) (stringify : User -> string) (u : User) (st : App.State),
        Sidebar.isLoggedIn (App.localStorage (App.handleLogin User stringify u st)) = true
        /\ Sidebar.isLoggedIn (App.localStorage (App.handleLogout st)) = false).
Proof.
  split; [|split; [|split; [|split]]].
  - rewrite <- sidebar_isLoggedIn_iff. unfold Sidebar.shown.
    destruct (Sidebar.isLoggedIn storage); cbn.
    + split; auto 10.
    + split; [|discriminate].
      intros H. repeat (destruct H as [H|H]; [discriminate H|]). contradiction.
  - unfold App.mount, Sidebar.isLoggedIn. cbn.
    destruct (storage !! "user"%string); [reflexivity|]. cbn. auto.
  - intros H. unfold App.mount, Sidebar.isLoggedIn. cbn. rewrite H. cbn. auto.
  - intros b. unfold Sidebar.isLoggedIn. cbn. now rewrite lookup_delete_eq.
  - intros User stringify u st. unfold Sidebar.isLoggedIn. cbn.
    now rewrite lookup_insert_eq, lookup_delete_eq.
Qed.

Lemma sidebar_admin_link_witness :
  Sidebar.isLoggedIn (RequestInterceptor.storing EmptyString) = true
  /\ App.isLoggedIn (App.mount (App.initial (RequestInterceptor.storing EmptyString)))
     = false.
Proof.
  apply (proj1 (proj2 (proj2 (sidebar_admin_link
           (RequestInterceptor.storing EmptyString))))).
  reflexivity.
Defined.

(** X14.  The links of the Sidebar and the routes of the App fit: no
    link shown leads to the catch-all redirect; at most one link is
    highlighted for a path; and a highlighted link of the main menu is at
    a path whose page is rendered, whatever the login state. *)
Theorem sidebar_links_are_routes (storage : gmap string string) (pathname : string) :
  (forall it, In it (Sidebar.shown storage) -> App.unknown (Sidebar.path it) = false)
  /\ (length (List.filter (Sidebar.selected pathname) (Sidebar.shown storage)) <= 1)%nat
  /\ (forall (b : bool) it,
        In it Sidebar.menuItems -> Sidebar.selected pathname it = true ->
        exists p, App.route b pathname = App.Render p).
Proof.
  split; [|split].
  - intros it. unfold Sidebar.shown.
    destruct (Sidebar.isLoggedIn storage); cbn;
      intros H; repeat (destruct H as [<-|H]; [reflexivity|]); contradiction.
  - unfold Sidebar.shown, Sidebar.selected.
    destruct (Sidebar.isLoggedIn storage); cbn [Sidebar.menuItems Sidebar.adminItems
      app List.filter Sidebar.path];
      repeat match goal with
             | |- context [String.eqb pathname ?p] =>
                 destruct (String.eqb pathname p) eqn:?
             end;
      cbn [length]; try lia; exfalso;
      repeat match goal with
             | H : String.eqb _ _ = true |- _ => apply String.eqb_eq in H
             end;
      congruence.
  - intros b it Hin Hsel. apply String.eqb_eq in Hsel. subst pathname.
    cbn in Hin. repeat (destruct Hin as [<-|Hin]; [eexists; reflexivity|]).
    contradiction.
Qed.

Lemma sidebar_links_are_routes_witness :
  exists p, App.route false "/topics" = App.Render p.
Proof.
  apply (proj2 (proj2 (sidebar_links_are_routes ∅ "/topics")) false
           (Sidebar.mkItem "Kafka Topics" "/topics")).
  - cbn. auto.
  - reflexivity.
Defined.

(** *** The Dashboard page *)

Lemma last_slice_snoc {A : Type} (l : list A) (x : A) :
  last (Js.slice (-10) (l ++ [x])) = Some x.
Proof.
  rewrite slice_last_ten, length_app. cbn [length].
  rewrite drop_app_le by lia. apply last_snoc.
Qed.

Lemma slice_short_keeps_all {A : Type} (l : list A) (x : A) :
  (length l < 10)%nat -> Js.slice (-10) (l ++ [x]) = l ++ [x].
Proof.
  intros Hl. rewrite slice_last_ten, length_app. cbn [length].
  replace (length l + 1 - 10)%nat with 0%nat by lia. apply drop_0.
Qed.

(** X15.  One chart update, from any chart whatever: afterwards no list
    is longer than 10, the newest label and values are the ones just
    given, and the titles and colours of the two datasets are as before.
    While a list holds fewer than 10 entries nothing is dropped from
    it. *)
Theorem chart_update_from_any_state (now : string) (m : Dashboard.Metrics)
    (prev : Dashboard.ChartData) :
  let c := Dashboard.updateChartData now m prev in
  ((length (Dashboard.labels c) <= 10)%nat
   /\ (length (Dashboard.data (Dashboard.datasets0 c)) <= 10)%nat
   /\ (length (Dashboard.data (Dashboard.datasets1 c)) <= 10)%nat)
  /\ (last (Dashboard.labels c) = Some now
      /\ last (Dashboard.data (Dashboard.datasets0 c))
         = Some (Dashboard.messages_processed m)
      /\ last (Dashboard.data (Dashboard.datasets1 c))
         = Some (Dashboard.processing_errors m))
  /\ (Dashboard.with_data (Dashboard.datasets0 c) [] 
      = Dashboard.with_data (Dashboard.datasets0 prev) []
      /\ Dashboard.with_data (Dashboard.datasets1 c) []
         = Dashboard.with_data (Dashboard.datasets1 prev) [])
  /\ ((length (Dashboard.labels prev) < 10)%nat ->
      Dashboard.labels c = Dashboard.labels prev ++ [now])
  /\ ((length (Dashboard.data (Dashboard.datasets0 prev)) < 10)%nat ->
      Dashboard.data (Dashboard.datasets0 c)
      = Dashboard.data (Dashboard.datasets0 prev) ++ [Dashboard.messages_processed m])
  /\ ((length (Dashboard.data (Dashboard.datasets1 prev)) < 10)%nat ->
      Dashboard.data (Dashboard.datasets1 c)
      = Dashboard.data (Dashboard.datasets1 prev) ++ [Dashboard.processing_errors m]).
Proof.
  cbn zeta. unfold Dashboard.updateChartData.
  cbn [Dashboard.labels Dashboard.datasets0 Dashboard.datasets1 Dashboard.with_data
       Dashboard.data Dashboard.label Dashboard.borderColor Dashboard.backgroundColor].
  repeat split; try apply slice_length_le; try apply last_slice_snoc;
    apply slice_short_keeps_all.
Qed.

Lemma chart_update_from_any_state_witness :
  Dashboard.labels (Dashboard.updateChartData "12:00:05" (Dashboard.mkMetrics 8 1)
                      Dashboard.initialChartData)
  = Dashboard.labels Dashboard.initialChartData ++ ["12:00:05"%string].
Proof.
  apply (proj1 (proj2 (proj2 (proj2 (chart_update_from_any_state "12:00:05"
           (Dashboard.mkMetrics 8 1) Dashboard.initialChartData))))).
  cbn. lia.
Defined.

Lemma dashboard_after_snoc (es : list DashboardPage.event) (e : DashboardPage.event) :
  DashboardPage.after (es ++ [e]) = DashboardPage.handle (DashboardPage.after es) e.
Proof.
  unfold DashboardPage.after. now rewrite foldl_app.
Qed.

Lemma most_recent_length {A : Type} (n : nat) (l : list A) :
  length (Dashboard.most_recent n l) = Nat.min n (length l).
Proof.
  rewrite most_recent_drop, length_drop. lia.
Qed.

(** X16.  On the Dashboard page only successful fetches feed the chart:
    after any sequence of polls and button presses the chart is the one
    built from the samples of the successful fetches alone, in order, so
    its three lists all have the length of that sequence capped at 10. *)
Theorem chart_holds_successful_fetches (es : list DashboardPage.event) :
  let samples := omap DashboardPage.sample_of es in
  let c := DashboardPage.chartData (DashboardPage.after es) in
  c = Dashboard.after_polls samples
  /\ length (Dashboard.labels c) = Nat.min 10 (length samples)
  /\ length (Dashboard.data (Dashboard.datasets0 c)) = Nat.min 10 (length samples)
  /\ length (Dashboard.data (Dashboard.datasets1 c)) = Nat.min 10 (length samples).
Proof.
  cbn zeta.
  assert (H : DashboardPage.chartData (DashboardPage.after es)
              = Dashboard.after_polls (omap DashboardPage.sample_of es)).
  { induction es as [|e es IH] using rev_ind; [reflexivity|].
    rewrite dashboard_after_snoc, omap_app.
    destruct e as [now [d|]|[] now [d|]|[] now [d|]]; cbn;
      rewrite ?app_nil_r, ?after_polls_snoc, IH; reflexivity. }
  rewrite H. split; [reflexivity|].
  destruct (after_polls_recent (omap DashboardPage.sample_of es)) as (H1 & H2 & H3).
  rewrite H1, H2, H3, !most_recent_length, !length_map. auto.
Qed.

(** X17.  The error of the Dashboard page is sticky: after any sequence
    of polls and button presses an error is shown exactly when some fetch
    or some start or stop call in the sequence failed; later successes do
    not clear it. *)
Theorem dashboard_error_is_sticky (es : list DashboardPage.event) :
  is_Some (DashboardPage.error (DashboardPage.after es))
  <-> existsb DashboardPage.fails es = true.
Proof.
  induction es as [|e es IH] using rev_ind.
  - cbn. split; [intros [x Hx]; discriminate Hx|discriminate].
  - rewrite dashboard_after_snoc, existsb_app. cbn [existsb].
    rewrite orb_false_r, orb_true_iff, <- IH.
    destruct e as [now [d|]|[] now [d|]|[] now [d|]]; cbn;
      split; eauto; intros [H|H]; eauto; discriminate H.
Qed.

(** *** The StreamingStatus page *)

Lemma status_after_snoc (polls : list (string * option StreamingStatus.Metrics
                                         * option StreamingStatus.Health))
    now m h :
  StreamingStatus.after (polls ++ [(now, m, h)])
  = StreamingStatus.fetchData now m h (StreamingStatus.after polls).
Proof.
  unfold StreamingStatus.after. now rewrite foldl_app.
Qed.

(** X18.  The StreamingStatus page shows the data of the last poll in
    which both the metrics and the health request succeeded (the initial
    data if there was none): a poll with one failed request changes
    neither, even if the other request succeeded.  Its error reflects the
    last poll only, and is cleared by a successful one. *)
Theorem status_shows_last_complete_poll
    (polls : list (string * option StreamingStatus.Metrics
                   * option StreamingStatus.Health)) :
  let st := StreamingStatus.after polls in
  (StreamingStatus.metrics st, StreamingStatus.healthStatus st,
   StreamingStatus.lastUpdated st)
  = match last (omap StreamingStatus.good polls) with
    | Some (now, m, h) => (m, h, Some now)
    | None => (StreamingStatus.metrics StreamingStatus.initial,
               StreamingStatus.healthStatus StreamingStatus.initial, None)
    end
  /\ (is_Some (StreamingStatus.error st)
      <-> exists p, last polls = Some p /\ StreamingStatus.good p = None)
  /\ (polls <> [] -> StreamingStatus.loading st = false).
Proof.
  induction polls as [|[[now m] h] polls IH] using rev_ind.
  - cbn. repeat split.
    + intros [x Hx]. discriminate Hx.
    + intros (p & Hp & _). discriminate Hp.
    + congruence.
  - cbn zeta in *. rewrite status_after_snoc, omap_app, last_snoc.
    destruct IH as (IH1 & _ & _).
    destruct m as [m|]; destruct h as [h|].
    + change (omap StreamingStatus.good [(now, Some m, Some h)])
        with [(now, m, h)].
      rewrite last_snoc. cbn. split; [reflexivity|]. split; [|auto]. split.
      * intros [x Hx]. discriminate Hx.
      * intros (p & [= <-] & Hp). discriminate Hp.
    + change (omap StreamingStatus.good [(now, Some m, @None StreamingStatus.Health)])
        with (@nil (string * StreamingStatus.Metrics * StreamingStatus.Health)).
      rewrite app_nil_r. cbn. split; [exact IH1|]. split; [|auto]. split; eauto.
    + change (omap StreamingStatus.good [(now, @None StreamingStatus.Metrics, Some h)])
        with (@nil (string * StreamingStatus.Metrics * StreamingStatus.Health)).
      rewrite app_nil_r. cbn. split; [exact IH1|]. split; [|auto]. split; eauto.
    + change (omap StreamingStatus.good
                [(now, @None StreamingStatus.Metrics, @None StreamingStatus.Health)])
        with (@nil (string * StreamingStatus.Metrics * StreamingStatus.Health)).
      rewrite app_nil_r. cbn. split; [exact IH1|]. split; [|auto]. split; eauto.
Qed.

Lemma status_shows_last_complete_poll_witness :
  StreamingStatus.loading
    (StreamingStatus.after [("12:00:00"%string, None, None)]) = false.
Proof.
  apply (proj2 (proj2 (status_shows_last_complete_poll
           [("12:00:00"%string, None, None)]))).
  discriminate.
Defined.

(** *** The AdminDashboard configuration form *)

(** X19.  Editing a configuration field: the field then reads the new
    value, every other field of every section reads as before (a missing
    section is created with that one field), and the success notice of an
    earlier save is taken down. *)
Theorem config_edit_reads_back (section field : string) (v : AdminDashboard.value)
    (st : AdminDashboard.State) :
  let st' := AdminDashboard.handleConfigChange section field v st in
  AdminDashboard.read section field st' = Some v
  /\ (forall s f, (s, f) <> (section, field) ->
        AdminDashboard.read s f st' = AdminDashboard.read s f st)
  /\ AdminDashboard.saveSuccess st' = false
  /\ AdminDashboard.saveSuccess (AdminDashboard.handleSaveConfig st') = true
  /\ AdminDashboard.config (AdminDashboard.handleSaveConfig st')
     = AdminDashboard.config st'.
Proof.
  cbn zeta. unfold AdminDashboard.read, AdminDashboard.handleConfigChange.
  cbn [AdminDashboard.config AdminDashboard.saveSuccess AdminDashboard.handleSaveConfig].
  split; [|split; [|auto]].
  - rewrite lookup_insert_eq. cbn. apply lookup_insert_eq.
  - intros s f Hne. destruct (decide (s = section)) as [->|Hs].
    + rewrite lookup_insert_eq. cbn.
      rewrite lookup_insert_ne by congruence.
      destruct (AdminDashboard.config st !! section); reflexivity.
    + now rewrite lookup_insert_ne by congruence.
Qed.

Lemma config_edit_reads_back_witness :
  AdminDashboard.read "kafka" "topic"
    (AdminDashboard.handleConfigChange "aws" "region" (AdminDashboard.Text "eu-west-1")
       AdminDashboard.sample_config)
  = AdminDashboard.read "kafka" "topic" AdminDashboard.sample_config.
Proof.
  apply (proj1 (proj2 (config_edit_reads_back "aws" "region"
           (AdminDashboard.Text "eu-west-1") AdminDashboard.sample_config))).
  discriminate.
Defined.

(** X20.  Configuration edits compose: edits of two different fields
    give the same configuration in either order, and a second edit of the
    same field makes the first one void. *)
Theorem config_edits_commute (s1 f1 s2 f2 : string) (v1 v2 : AdminDashboard.value)
    (st : AdminDashboard.State) :
  ((s1, f1) <> (s2, f2) ->
   AdminDashboard.handleConfigChange s1 f1 v1
     (AdminDashboard.handleConfigChange s2 f2 v2 st)
   = AdminDashboard.handleConfigChange s2 f2 v2
       (AdminDashboard.handleConfigChange s1 f1 v1 st))
  /\ AdminDashboard.handleConfigChange s1 f1 v1
       (AdminDashboard.handleConfigChange s1 f1 v2 st)
     = AdminDashboard.handleConfigChange s1 f1 v1 st.
Proof.
  unfold AdminDashboard.handleConfigChange.
  cbn [AdminDashboard.config AdminDashboard.activeTab]. split.
  - intros Hne. f_equal. destruct (decide (s1 = s2)) as [->|Hs].
    + rewrite !lookup_insert_eq. cbn [default from_option]. unfold id.
      rewrite !insert_insert_eq. f_equal.
      apply insert_insert_ne. congruence.
    + rewrite !lookup_insert_ne by congruence.
      apply insert_insert_ne. congruence.
  - f_equal. rewrite lookup_insert_eq. cbn [default from_option]. unfold id.
    now rewrite !insert_insert_eq.
Qed.

Lemma config_edits_commute_witness :
  AdminDashboard.handleConfigChange "aws" "region" (AdminDashboard.Text "eu-west-1")
    (AdminDashboard.handleConfigChange "app" "debug_mode" (AdminDashboard.Flag true)
       AdminDashboard.sample_config)
  = AdminDashboard.handleConfigChange "app" "debug_mode" (AdminDashboard.Flag true)
      (AdminDashboard.handleConfigChange "aws" "region" (AdminDashboard.Text "eu-west-1")
         AdminDashboard.sample_config).
Proof.
  apply (proj1 (config_edits_commute "aws" "region" "app" "debug_mode"
                  (AdminDashboard.Text "eu-west-1") (AdminDashboard.Flag true)
                  AdminDashboard.sample_config)).
  discriminate.
Defined.
